(** * InfraCalc: quantity extraction and cost aggregation

    A shallow embedding of the estimation core of the road-safety cost
    estimator: the command-line script [main.py] and the PDF tab of the
    dashboard [app.py].

    Conventions of the embedding.
    - Python numbers ([int] and [float]) are exact rationals [Q]; numeric
      equality ([==] in Python) is [Qeq].  Rounding of binary64 is not
      modelled.
    - Text is a [string] of ASCII characters; [str.lower], [\d], [\s] and
      the IGNORECASE flag are given on that range.
    - A Python exception is a value of [exn]; code that can raise lives in
      the [py] monad.
    - [dict]s loaded from JSON with a fixed schema are records; the price
      table is a [gmap string Q].  The objects that [main.py] mutates
      through an alias live in an explicit heap. *)

From Stdlib Require Import Ascii String QArith Qround Lqa.
From stdpp Require Import gmap strings list fin_maps functions.

Local Open Scope string_scope.
Local Open Scope list_scope.
Local Open Scope Z_scope.

(** ** Exceptions *)

Inductive exn := ValueError | ZeroDivisionError | IndexError | KeyError | TypeError.

Inductive py (A : Type) :=
| Ok (a : A)
| Raise (e : exn).
Arguments Ok {A} a.
Arguments Raise {A} e.

#[export] Instance py_ret : MRet py := @Ok.
#[export] Instance py_bind : MBind py := λ A B f c,
  match c with
  | Ok a => f a
  | Raise e => Raise e
  end.

(** [try: c  except: h] with a bare [except]. *)
Definition try_except {A} (c : py A) (h : A) : A :=
  match c with
  | Ok a => a
  | Raise _ => h
  end.

(** ** Characters and strings *)

Module Str.

Definition code (c : ascii) : N := N_of_ascii c.

Definition is_digit (c : ascii) : bool :=
  ((48 <=? code c) && (code c <=? 57))%N.

(** [str.isspace] on the ASCII range, which is what [\s] and the stripping
    of [int()] use: TAB..CR, FS..US and the space. *)
Definition is_space (c : ascii) : bool :=
  (((9 <=? code c) && (code c <=? 13)) || ((28 <=? code c) && (code c <=? 32)))%N.

Definition is_digit_or_dot (c : ascii) : bool :=
  is_digit c || Ascii.eqb c "."%char.

Definition lower_char (c : ascii) : ascii :=
  if ((65 <=? code c) && (code c <=? 90))%N then ascii_of_N (code c + 32) else c.

Definition upper_char (c : ascii) : ascii :=
  if ((97 <=? code c) && (code c <=? 122))%N then ascii_of_N (code c - 32) else c.

Fixpoint lower (s : string) : string :=
  match s with
  | EmptyString => EmptyString
  | String c s' => String (lower_char c) (lower s')
  end.

Fixpoint upper (s : string) : string :=
  match s with
  | EmptyString => EmptyString
  | String c s' => String (upper_char c) (upper s')
  end.

Fixpoint startswith (p s : string) : bool :=
  match p, s with
  | EmptyString, _ => true
  | String a p', String b s' => Ascii.eqb a b && startswith p' s'
  | String _ _, EmptyString => false
  end.

(** [p in s] *)
Fixpoint contains (p s : string) : bool :=
  startswith p s ||
  match s with
  | EmptyString => false
  | String _ s' => contains p s'
  end.

Fixpoint take (n : nat) (s : string) : string :=
  match n, s with
  | O, _ => EmptyString
  | S n', String c s' => String c (take n' s')
  | S _, EmptyString => EmptyString
  end.

(** [s.count(p)]: occurrences of [p] in [s], left to right, without
    overlap; [skip] characters of a match found earlier are still to be
    passed over.  The empty pattern occurs [len(s) + 1] times. *)
Fixpoint count_from (p s : string) (skip : nat) : Z :=
  match s with
  | EmptyString => 0
  | String _ s' =>
      match skip with
      | S k => count_from p s' k
      | O => if startswith p s then 1 + count_from p s' (String.length p - 1)
             else count_from p s' 0
      end
  end.

Definition count (p s : string) : Z :=
  match p with
  | EmptyString => Z.of_nat (String.length s) + 1
  | _ => count_from p s 0
  end.

(** [s.split(sep)] for a one-character separator. *)
Fixpoint split (sep : ascii) (s : string) : list string :=
  match s with
  | EmptyString => [EmptyString]
  | String c s' =>
      if Ascii.eqb c sep then EmptyString :: split sep s'
      else match split sep s' with
           | p :: ps => String c p :: ps
           | [] => [String c EmptyString]
           end
  end.

Fixpoint lstrip (s : string) : string :=
  match s with
  | String c s' => if is_space c then lstrip s' else s
  | EmptyString => EmptyString
  end.

Fixpoint rstrip (s : string) : string :=
  match s with
  | EmptyString => EmptyString
  | String c s' =>
      match rstrip s' with
      | EmptyString => if is_space c then EmptyString else String c EmptyString
      | r => String c r
      end
  end.

Definition strip (s : string) : string := rstrip (lstrip s).

Definition digit_val (c : ascii) : Z := Z.of_N (code c) - 48.

(** Value of a run of decimal digits, most significant first; [None] when
    a character is not a digit. *)
Fixpoint digits_val (acc : Z) (s : string) : option Z :=
  match s with
  | EmptyString => Some acc
  | String c s' =>
      if is_digit c then digits_val (10 * acc + digit_val c) s' else None
  end.

Fixpoint forallb (p : ascii → bool) (s : string) : bool :=
  match s with
  | EmptyString => true
  | String c s' => p c && forallb p s'
  end.

(** A non-empty run of decimal digits. *)
Definition is_number (s : string) : bool :=
  match s with
  | EmptyString => false
  | _ => forallb is_digit s
  end.

End Str.

(** ** Built-in conversions *)

(** Digits with single underscores between them, as [int()] takes them;
    [after_digit] tells whether the previous character was a digit. *)
Fixpoint int_body (acc : Z) (after_digit : bool) (s : string) : option Z :=
  match s with
  | EmptyString => if after_digit then Some acc else None
  | String c s' =>
      if Str.is_digit c then int_body (10 * acc + Str.digit_val c) true s'
      else if Ascii.eqb c "_"%char
           then (if after_digit then int_body acc false s' else None)
           else None
  end.

(** [int(s)] for a string [s], base 10: surrounding whitespace is dropped,
    one sign is allowed, then digits with single underscores inside. *)
Definition py_int (s : string) : py Z :=
  let body sign t :=
    match int_body 0 false t with
    | Some n => Ok (sign * n)
    | None => Raise ValueError
    end in
  match Str.strip s with
  | String c t =>
      if Ascii.eqb c "-"%char then body (-1) t
      else if Ascii.eqb c "+"%char then body 1 t
      else body 1 (String c t)
  | EmptyString => Raise ValueError
  end.

(** [10 ^ n] as a positive, for the denominator of a decimal fraction. *)
Definition pow10 (n : nat) : positive := Z.to_pos (10 ^ Z.of_nat n).

(** [float(s)] on the strings a [[\d\.]+] or [\d+] group can capture:
    digits with at most one point and at least one digit.  Any other
    string over these characters raises [ValueError], as in Python. *)
Definition py_float (s : string) : py Q :=
  match Str.split "." s with
  | [i] =>
      match i, Str.digits_val 0 i with
      | String _ _, Some n => Ok (inject_Z n)
      | _, _ => Raise ValueError
      end
  | [i; f] =>
      match Str.digits_val 0 i, Str.digits_val 0 f with
      | Some n, Some m =>
          if (String.length i + String.length f =? 0)%nat then Raise ValueError
          else Ok (Qmake (n * Zpos (pow10 (String.length f)) + m) (pow10 (String.length f)))
      | _, _ => Raise ValueError
      end
  | _ => Raise ValueError
  end.

(** [a / b] *)
Definition py_div (a b : Q) : py Q :=
  if Qeq_bool b 0 then Raise ZeroDivisionError else Ok (a / b)%Q.

(** ** Regular expressions

    The fragment of [re] the program uses: literals (matched without
    regard to case), the classes [\d], [\s] and [[\d\.]], greedy [*] and
    [+] on a class, concatenation and capturing groups that are not
    nested.  Matching is by backtracking in the order of [re]: a greedy
    repetition first takes as much as it can and gives back one character
    at a time. *)

Module Re.

Inductive t :=
| Eps
| Lit (c : ascii)
| Star (p : ascii → bool)
| Plus (p : ascii → bool)
| Seq (r1 r2 : t)
| Grp (r : t).

Fixpoint lits (s : string) : t :=
  match s with
  | EmptyString => Eps
  | String c s' => Seq (Lit c) (lits s')
  end.

Fixpoint cat (rs : list t) : t :=
  match rs with
  | [] => Eps
  | r :: rs' => Seq r (cat rs')
  end.

Section Matcher.
Context {R : Type}.

Fixpoint star (p : ascii → bool) (s : string) (k : string → option R) : option R :=
  match s with
  | String c s' =>
      if p c then
        match star p s' k with
        | Some r => Some r
        | None => k s
        end
      else k s
  | EmptyString => k s
  end.

(** The text consumed between [s] and its suffix [s']. *)
Definition consumed (s s' : string) : string :=
  Str.take (String.length s - String.length s') s.

Fixpoint run (r : t) (s : string) (caps : list string)
    (k : string → list string → option R) : option R :=
  match r with
  | Eps => k s caps
  | Lit c =>
      match s with
      | String c' s' =>
          if Ascii.eqb (Str.lower_char c') (Str.lower_char c) then k s' caps else None
      | EmptyString => None
      end
  | Star p => star p s (fun s' => k s' caps)
  | Plus p =>
      match s with
      | String c s' => if p c then star p s' (fun s'' => k s'' caps) else None
      | EmptyString => None
      end
  | Seq r1 r2 => run r1 s caps (fun s' caps' => run r2 s' caps' k)
  | Grp r1 => run r1 s caps (fun s' caps' => k s' (caps' ++ [consumed s s']))
  end.
End Matcher.

(** [re.match(r, s)]: the groups of a match that starts at the head of [s]. *)
Definition match_here (r : t) (s : string) : option (list string) :=
  run r s [] (fun _ caps => Some caps).

(** [re.search(r, s, re.IGNORECASE)]: the groups of the leftmost match. *)
Fixpoint search (r : t) (s : string) : option (list string) :=
  match match_here r s with
  | Some caps => Some caps
  | None =>
      match s with
      | String _ s' => search r s'
      | EmptyString => None
      end
  end.

End Re.

(** The patterns of the program. *)

(** [(\d+)\s*m] *)
Definition pat_length_m : Re.t :=
  Re.cat [Re.Grp (Re.Plus Str.is_digit); Re.Star Str.is_space; Re.lits "m"].

(** [(\d+)\+(\d+)\s+to\s+(\d+)\+(\d+)] *)
Definition pat_chainage_range : Re.t :=
  Re.cat [Re.Grp (Re.Plus Str.is_digit); Re.Lit "+"; Re.Grp (Re.Plus Str.is_digit);
          Re.Plus Str.is_space; Re.lits "to"; Re.Plus Str.is_space;
          Re.Grp (Re.Plus Str.is_digit); Re.Lit "+"; Re.Grp (Re.Plus Str.is_digit)].

(** [area\s*([\d\.]+)\s*sqm] *)
Definition pat_area : Re.t :=
  Re.cat [Re.lits "area"; Re.Star Str.is_space; Re.Grp (Re.Plus Str.is_digit_or_dot);
          Re.Star Str.is_space; Re.lits "sqm"].

(** [([\d\.]+)\s*mm\s*depth] *)
Definition pat_depth : Re.t :=
  Re.cat [Re.Grp (Re.Plus Str.is_digit_or_dot); Re.Star Str.is_space; Re.lits "mm";
          Re.Star Str.is_space; Re.lits "depth"].


(** ** Values of any type

    [interpolate_gps] is guarded by a bare [except], so what it does on
    arguments of the wrong type is part of its behaviour.  The values it
    is followed on: [None], numbers, strings and tuples. *)

#[warnings="-register-all"]
Inductive value :=
| VNone
| VNum (q : Q)
| VStr (s : string)
| VTuple (vs : list value).

(** [a - b]: only numbers can be subtracted. *)
Definition py_sub (a b : value) : py Q :=
  match a, b with
  | VNum x, VNum y => Ok (x - y)%Q
  | _, _ => Raise TypeError
  end.

(** [a + y] for a number [y]. *)
Definition py_add_num (a : value) (y : Q) : py Q :=
  match a with
  | VNum x => Ok (x + y)%Q
  | _ => Raise TypeError
  end.

(** [v[i]] *)
Definition py_index (v : value) (i : nat) : py value :=
  match v with
  | VTuple vs =>
      match vs !! i with
      | Some x => Ok x
      | None => Raise IndexError
      end
  | VStr s =>
      match String.get i s with
      | Some c => Ok (VStr (String c EmptyString))
      | None => Raise IndexError
      end
  | VNone | VNum _ => Raise TypeError
  end.

(** [parts[i]] for a list of strings. *)
Definition list_index (parts : list string) (i : nat) : py string :=
  match parts !! i with
  | Some x => Ok x
  | None => Raise IndexError
  end.

(** ** Data model *)

(** A material requirement: one [{"name", "quantity", "unit"}] object. *)
Record material := Material {
  name : string;
  quantity : Q;
  unit : string
}.

(** The price table: material name to price per unit. *)
Abbreviation price_table := (gmap string Q).

(** One line of the text report, from the line that names an intervention
    to the summary; the heading of the report, which has the time and the
    name of the file, is left out.  The f-strings format their numbers
    with two decimals; a line here carries the numbers themselves. *)
Inductive line :=
| LIntervention (key_upper : string)
| LQuantity (quantity_found : Q) (unit_type : string)
| LSource (source_clause : string)
| LBreakdown
| LPriced (mat_name : string) (mat_qty_needed mat_price_per_unit line_cost : Q)
| LPriceNotFound (mat_name : string) (mat_qty_needed : Q)
| LTotal (intervention_key : string) (item_total_cost : Q)
| LSummary (total_project_cost : Q).

(** ** The cost loop

    [for material in materials_list: ...], the same in both programs up to
    the expression [qty_needed] that gives [mat_qty_needed].  The state of
    the loop is [item_total_cost] and the report written so far. *)

Section CostLoop.
Variable qty_needed : material → Q.
Variable prices : price_table.

Definition cost_step (st : Q * list line) (m : material) : Q * list line :=
  let mat_name := name m in
  let mat_qty_needed := qty_needed m in
  match prices !! mat_name with
  | Some mat_price_per_unit =>
      let line_cost := (mat_qty_needed * mat_price_per_unit)%Q in
      ((st.1 + line_cost)%Q,
       st.2 ++ [LPriced mat_name mat_qty_needed mat_price_per_unit line_cost])
  | None =>
      (st.1, st.2 ++ [LPriceNotFound mat_name mat_qty_needed])
  end.

Definition cost_loop (materials_list : list material) (report : list line)
    : Q * list line :=
  fold_left cost_step materials_list (0%Q, report).
End CostLoop.

(** [match.group(1)] *)
Definition group1 (caps : list string) : py string :=
  match caps with
  | g :: _ => Ok g
  | [] => Raise IndexError
  end.

(** The quantity of road studs for a stretch given by its chainage range:
    [start_km, start_m, end_km, end_m = map(int, chainage_match.groups())]
    and the arithmetic that follows. *)
Definition studs_of_range (caps : list string) : py Q :=
  match caps with
  | [g1; g2; g3; g4] =>
      start_km ← py_int g1;
      start_m ← py_int g2;
      end_km ← py_int g3;
      end_m ← py_int g4;
      let length_m := Z.abs (((end_km * 1000) + end_m) - ((start_km * 1000) + start_m)) in
      let studs_per_edge := Qceiling (inject_Z length_m / 9) in
      Ok (inject_Z (studs_per_edge * 2))
  | _ => Raise ValueError
  end.

(** The volume of a pothole, from the two matches of the per-cubic-meter
    branch. *)
Definition pothole_volume (area_caps depth_caps : list string) : py Q :=
  a ← group1 area_caps;
  area_sqm ← py_float a;
  d ← group1 depth_caps;
  depth_mm ← py_float d;
  let depth_m := (depth_mm / 1000)%Q in
  Ok (area_sqm * depth_m)%Q.

(** An entry of the specification table: the object under an intervention
    name, with its citation and the material lists that are present
    ([None]: the key is not in the [dict]).  [A] is what a list holds:
    the material itself, or a reference to it. *)
Record specs (A : Type) := Specs {
  source_clause : string;
  materials_per_item : option (list A);
  materials_per_meter : option (list A);
  materials_per_cubic_meter : option (list A);
  materials_per_sqm_20mm : option (list A)
}.
Arguments Specs {A}.
Arguments source_clause {A}.
Arguments materials_per_item {A}.
Arguments materials_per_meter {A}.
Arguments materials_per_cubic_meter {A}.
Arguments materials_per_sqm_20mm {A}.

(** [key in d] *)
Definition has {A} (field : option A) : bool :=
  match field with
  | Some _ => true
  | None => false
  end.

(** [d.get(key, [])] *)
Definition get_or_nil {A} (field : option (list A)) : list A :=
  match field with
  | Some l => l
  | None => []
  end.

(** A [for] loop whose body can raise. *)
Fixpoint for_in {A S} (xs : list A) (body : S → A → py S) (st : S) : py S :=
  match xs with
  | [] => Ok st
  | x :: xs' => st' ← body st x; for_in xs' body st'
  end.

(** ** [app.py]: the PDF tab *)

Module App.

(** Lines 36-39.  [None] is Python's [None]. *)
Definition parse_chainage (ch_str : string) : option Z :=
  try_except
    (let parts := Str.split "+" ch_str in
     if (length parts =? 2)%nat then
       p0 ← list_index parts 0;
       km ← py_int p0;
       p1 ← list_index parts 1;
       m ← py_int p1;
       Ok (Some (km * 1000 + m))
     else
       p0 ← list_index parts 0;
       n ← py_int p0;
       Ok (Some n))
    None.

(** Lines 40-48. *)
Definition interpolate_gps (chainage_m start_ch end_ch start_gps end_gps : value)
    : value :=
  try_except
    (num ← py_sub chainage_m start_ch;
     den ← py_sub end_ch start_ch;
     fraction ← py_div num den;
     let fraction := if Qlt_le_dec fraction 0 then 0%Q else fraction in
     let fraction := if Qlt_le_dec 1 fraction then 1%Q else fraction in
     s0 ← py_index start_gps 0;
     e0 ← py_index end_gps 0;
     d0 ← py_sub e0 s0;
     lat ← py_add_num s0 (d0 * fraction);
     s1 ← py_index start_gps 1;
     e1 ← py_index end_gps 1;
     d1 ← py_sub e1 s1;
     lon ← py_add_num s1 (d1 * fraction);
     Ok (VTuple [VNum lat; VNum lon]))
    start_gps.

(** An entry of [results_list]. *)
Record result_item := ResultItem {
  Intervention : string;
  Quantity : Q;
  Unit : string;
  Source_Clause : string;
  Material_Cost : Q
}.

(** Lines 141-164: the quantity logic.  The result is
    [(quantity_found, unit_type)]. *)
Definition quantity_logic (intervention_key : string) (s : specs material)
    (full_report_text_lower : string) : py (Q * string) :=
  let key := Str.lower intervention_key in
  if has (materials_per_meter s) then
    if String.eqb key "longitudinal markings" then
      match Re.search pat_length_m full_report_text_lower with
      | Some caps => g ← group1 caps; q ← py_float g; Ok (q, "meter")
      | None => Ok (1%Q, "meter")
      end
    else if String.eqb key "streetlights" then Ok (1000%Q, "meter")
    else if String.eqb key "road studs" then
      match Re.search pat_chainage_range full_report_text_lower with
      | Some caps => q ← studs_of_range caps; Ok (q, "item")
      | None => Ok (1%Q, "item")
      end
    else Ok (1%Q, "meter")
  else if has (materials_per_item s) then
    let n := Str.count key full_report_text_lower in
    Ok (inject_Z (if n =? 0 then 1 else n), "item")
  else if has (materials_per_cubic_meter s) then
    match Re.search pat_area full_report_text_lower,
          Re.search pat_depth full_report_text_lower with
    | Some area_caps, Some depth_caps =>
        if String.eqb key "pothole"
        then q ← pothole_volume area_caps depth_caps; Ok (q, "m^3")
        else Ok (0%Q, "m^3")
    | _, _ => Ok (0%Q, "m^3")
    end
  else if has (materials_per_sqm_20mm s) then
    match Re.search pat_area full_report_text_lower with
    | Some area_caps =>
        if String.eqb key "pothole"
        then g ← group1 area_caps; q ← py_float g; Ok (q, "sqm")
        else Ok (1%Q, "sqm")
    | None => Ok (1%Q, "sqm")
    end
  else Ok (0%Q, "item").

(** Lines 181-185: the list the cost loop runs over. *)
Definition materials_list (s : specs material) : list material :=
  match materials_per_item s, materials_per_meter s,
        materials_per_cubic_meter s, materials_per_sqm_20mm s with
  | Some l, _, _, _ => l
  | None, Some l, _, _ => l
  | None, None, Some l, _ => l
  | None, None, None, Some l => l
  | None, None, None, None => []
  end.

(** Lines 191-194: [mat_qty_needed]. *)
Definition qty_needed (intervention_key unit_type : string) (quantity_found : Q)
    (m : material) : Q :=
  if String.eqb (Str.lower intervention_key) "road studs" && String.eqb unit_type "item"
  then (quantity_found * quantity m)%Q
  else (quantity m * quantity_found)%Q.

(** Lines 180-202: the cost of one intervention, [(item_total_cost,
    report_lines)]. *)
Definition calculate_cost (intervention_key unit_type : string) (s : specs material)
    (quantity_found : Q) (editable_prices : price_table) (report_lines : list line)
    : Q * list line :=
  cost_loop (qty_needed intervention_key unit_type quantity_found) editable_prices
    (materials_list s) report_lines.

(** The variables of the run that the loop over the interventions
    updates. *)
Record state := State {
  total_project_cost : Q;
  report_lines : list line;
  results_list : list result_item
}.

(** Lines 134-212, one turn of the loop over [spec_database.items()].
    [specs_original.copy()] is a copy of a value here: nothing below
    writes to it.  The search for a chainage label and [map_data] only
    feed the map and are left out. *)
Definition iteration (full_report_text_lower : string) (editable_prices : price_table)
    (st : state) (entry : string * specs material) : py state :=
  let '(intervention_key, specs_original) := entry in
  let s := specs_original in
  if Str.contains (Str.lower intervention_key) full_report_text_lower then
    let report := report_lines st ++ [LIntervention (Str.upper intervention_key)] in
    '(quantity_found, unit_type) ← quantity_logic intervention_key s full_report_text_lower;
    let report := report ++ [LQuantity quantity_found unit_type;
                             LSource (source_clause s); LBreakdown] in
    let '(item_total_cost, report) :=
      calculate_cost intervention_key unit_type s quantity_found editable_prices report in
    let report := report ++ [LTotal intervention_key item_total_cost] in
    let total := (total_project_cost st + item_total_cost)%Q in
    if Qlt_le_dec 0 item_total_cost then
      Ok (State total report
            (results_list st ++
             [ResultItem intervention_key quantity_found unit_type (source_clause s)
                         item_total_cost]))
    else Ok (State total report (results_list st))
  else Ok st.

(** Lines 125-216: the estimation of one uploaded report, which the
    program enters when the text of the report is not empty. *)
Definition run (spec_database : list (string * specs material))
    (full_report_text : string) (editable_prices : price_table) : py state :=
  let full_report_text_lower := Str.lower full_report_text in
  st ← for_in spec_database (iteration full_report_text_lower editable_prices)
         (State 0 [] []);
  Ok (State (total_project_cost st)
            (report_lines st ++ [LSummary (total_project_cost st)])
            (results_list st)).

End App.

(** ** The object store of [main.py]

    [main.py] writes to a material object through a copy of a
    specification entry.  The entries ([dict]s of the table and their
    copies) and the material objects are kept in a store and named by
    references; a list of materials is a list of references. *)

Abbreviation loc := nat.

Record heap := Heap {
  dicts : loc → specs loc;
  mats : loc → material;
  next : loc
}.

(** Code that reads and writes the store and can raise. *)
Definition M (A : Type) : Type := heap → py (A * heap).

#[export] Instance M_ret : MRet M := λ A a h, Ok (a, h).
#[export] Instance M_bind : MBind M := λ A B f c h,
  match c h with
  | Ok (a, h') => f a h'
  | Raise e => Raise e
  end.

Definition lift {A} (c : py A) : M A := λ h,
  match c with
  | Ok a => Ok (a, h)
  | Raise e => Raise e
  end.

Definition get_heap : M heap := λ h, Ok (h, h).

(** The entry a reference names. *)
Definition dict_read (r : loc) : M (specs loc) := λ h, Ok (dicts h r, h).

(** [d.copy()]: a new [dict] with the same values under the same keys. *)
Definition dict_copy (r : loc) : M loc := λ h,
  Ok (next h, Heap (<[next h := dicts h r]> (dicts h)) (mats h) (S (next h))).

(** [d["materials_per_item"] = d.pop("materials_per_meter")] *)
Definition dict_move_meter_to_item (r : loc) : M Datatypes.unit := λ h,
  let d := dicts h r in
  match materials_per_meter d with
  | Some l =>
      Ok (tt, Heap (<[r := Specs (source_clause d) (Some l) None
                               (materials_per_cubic_meter d) (materials_per_sqm_20mm d)]>
                      (dicts h))
                   (mats h) (next h))
  | None => Raise KeyError
  end.

(** [d["materials_per_item"][0]["quantity"] = q] *)
Definition set_first_item_quantity (r : loc) (q : Q) : M Datatypes.unit := λ h,
  match materials_per_item (dicts h r) with
  | Some (m :: _) =>
      Ok (tt, Heap (dicts h)
                   (<[m := Material (name (mats h m)) q (unit (mats h m))]> (mats h))
                   (next h))
  | Some [] => Raise IndexError
  | None => Raise KeyError
  end.

(** A [for] loop on the store. *)
Fixpoint for_in_M {A S} (xs : list A) (body : S → A → M S) (st : S) : M S :=
  match xs with
  | [] => mret st
  | x :: xs' => st' ← body st x; for_in_M xs' body st'
  end.

(** ** [main.py]: the command-line script *)

Module Main.

(** Lines 67-95: the quantity logic by kind of material list. *)
Definition quantity_logic {A} (intervention_key : string) (s : specs A)
    (full_report_text : string) : py (Q * string) :=
  let key := Str.lower intervention_key in
  if has (materials_per_meter s) then
    if String.eqb key "longitudinal markings" then
      match Re.search pat_length_m full_report_text with
      | Some caps => g ← group1 caps; q ← py_float g; Ok (q, "meter")
      | None => Ok (1%Q, "meter")
      end
    else if String.eqb key "streetlights" then Ok (1000%Q, "meter")
    else Ok (1%Q, "meter")
  else if has (materials_per_item s) then
    let n := Str.count key full_report_text in
    Ok (inject_Z (if n =? 0 then 1 else n), "item")
  else if has (materials_per_cubic_meter s) then
    match Re.search pat_area full_report_text,
          Re.search pat_depth full_report_text with
    | Some area_caps, Some depth_caps =>
        if String.eqb key "pothole"
        then q ← pothole_volume area_caps depth_caps; Ok (q, "m^3")
        else Ok (0%Q, "m^3")
    | _, _ => Ok (0%Q, "m^3")
    end
  else Ok (0%Q, "").

(** Lines 111-116 and 120-125: the adjustment of the entry for road
    studs.  The result is the reference [specs] is bound to afterwards. *)
Definition adjust_spec (specs_ref : loc) : M loc :=
  s ← dict_read specs_ref;
  if has (materials_per_meter s) then
    current_specs ← dict_copy specs_ref;
    _ ← dict_move_meter_to_item current_specs;
    _ ← set_first_item_quantity current_specs 1%Q;
    mret current_specs
  else mret specs_ref.

(** Lines 97-125: the logic for road studs, which comes after the
    quantity logic whatever lists the entry has.  The result is
    [(quantity_found, unit_type, specs)]. *)
Definition road_studs_logic (intervention_key : string) (specs_ref : loc)
    (full_report_text : string) (quantity_found : Q) (unit_type : string)
    : M (Q * string * loc) :=
  let is_road_studs := String.eqb (Str.lower intervention_key) "road studs" in
  if is_road_studs then
    match Re.search pat_chainage_range full_report_text with
    | Some caps =>
        q ← lift (studs_of_range caps);
        r ← adjust_spec specs_ref;
        mret (q, "item", r)
    | None =>
        r ← adjust_spec specs_ref;
        mret (1%Q, "item", r)
    end
  else mret (quantity_found, unit_type, specs_ref).

(** Lines 136-138: the list the cost loop runs over. *)
Definition materials_list {A} (s : specs A) : list A :=
  get_or_nil (materials_per_item s) ++
  get_or_nil (materials_per_meter s) ++
  get_or_nil (materials_per_cubic_meter s).

(** Line 144: [mat_qty_needed]. *)
Definition qty_needed (quantity_found : Q) (m : material) : Q :=
  (quantity m * quantity_found)%Q.

(** Lines 132-160: the cost of one intervention, [(item_total_cost,
    report)], for the entry [specs] is bound to. *)
Definition calculate_cost (specs_ref : loc) (quantity_found : Q)
    (price_database : price_table) (report : list line) : M (Q * list line) :=
  s ← dict_read specs_ref;
  h ← get_heap;
  mret (cost_loop (qty_needed quantity_found) price_database
          (mats h <$> materials_list s) report).

(** Lines 60-169, one turn of the loop over [spec_database.items()]; the
    state is [(total_project_cost, report)]. *)
Definition iteration (full_report_text : string) (price_database : price_table)
    (st : Q * list line) (entry : string * loc) : M (Q * list line) :=
  let '(intervention_key, specs_ref) := entry in
  if Str.contains (Str.lower intervention_key) full_report_text then
    let report := st.2 ++ [LIntervention (Str.upper intervention_key)] in
    s ← dict_read specs_ref;
    '(quantity_found, unit_type) ← lift (quantity_logic intervention_key s full_report_text);
    '(quantity_found, unit_type, specs_ref) ←
      road_studs_logic intervention_key specs_ref full_report_text quantity_found unit_type;
    s ← dict_read specs_ref;
    let report := report ++ [LQuantity quantity_found unit_type;
                             LSource (source_clause s); LBreakdown] in
    '(item_total_cost, report) ←
      calculate_cost specs_ref quantity_found price_database report;
    let report := report ++ [LTotal intervention_key item_total_cost] in
    mret ((st.1 + item_total_cost)%Q, report)
  else mret st.

(** Lines 36-175: the estimation of the report, on its text as extracted
    from the PDF. *)
Definition run (spec_database : list (string * loc)) (extracted_text : string)
    (price_database : price_table) : M (Q * list line) :=
  let full_report_text := Str.lower extracted_text in
  st ← for_in_M spec_database (iteration full_report_text price_database) (0%Q, []);
  mret (st.1, st.2 ++ [LSummary st.1]).

End Main.

(** ** The chainage format in the words of the specification

    Either a bare integer (meters) or [<km>+<m>] where both parts are
    non-negative integers; anything else has no value. *)
Definition chainage_format (text : string) : option Z :=
  match Str.split "+" text with
  | [n] =>
      if Str.is_number n then Str.digits_val 0 n else None
  | [km; m] =>
      if Str.is_number km && Str.is_number m then
        match Str.digits_val 0 km, Str.digits_val 0 m with
        | Some a, Some b => Some (a * 1000 + b)
        | _, _ => None
        end
      else None
  | _ => None
  end.

(** The characters that [int()] takes besides digits: a sign, an
    underscore, and the whitespace it strips ('+' never reaches it, the
    text is split there). *)
Definition lenient_char (c : ascii) : bool :=
  Ascii.eqb c "-"%char || Ascii.eqb c "_"%char || Str.is_space c.


(** ** Well-formed arguments of the interpolation *)

(** A pair of numbers equal to [(a, b)]. *)
Definition same_coord (v : value) (a b : Q) : Prop :=
  ∃ x y, v = VTuple [VNum x; VNum y] ∧ (x == a)%Q ∧ (y == b)%Q.

Definition is_num (v : value) : bool :=
  match v with
  | VNum _ => true
  | _ => false
  end.

(** A coordinate: indexable at 0 and 1, with numbers there. *)
Definition is_coord (v : value) : bool :=
  match v with
  | VTuple (VNum _ :: VNum _ :: _) => true
  | _ => false
  end.

Definition well_formed (chainage_m start_ch end_ch start_gps end_gps : value) : bool :=
  is_num chainage_m && is_num start_ch && is_num end_ch &&
  is_coord start_gps && is_coord end_gps.

(** The fraction after the two clamping statements. *)
Definition clamp (fraction : Q) : Q :=
  let fraction := if Qlt_le_dec fraction 0 then 0%Q else fraction in
  if Qlt_le_dec 1 fraction then 1%Q else fraction.


(** ** The cost of an intervention in the words of the specification *)

(** The sum of a list of amounts, added in order onto zero. *)
Definition Qsum (xs : list Q) : Q := fold_left Qplus xs 0%Q.

(** The materials with a known price. *)
Definition priced (prices : price_table) (ms : list material) : list material :=
  filter (λ m, is_Some (prices !! name m)) ms.

(** The price of a material, for one that has a price. *)
Definition unit_price (prices : price_table) (m : material) : Q :=
  default 0%Q (prices !! name m).

(** The line of the breakdown for one material. *)
Definition cost_line (qty_needed : material → Q) (prices : price_table)
    (m : material) : line :=
  match prices !! name m with
  | Some p => LPriced (name m) (qty_needed m) p (qty_needed m * p)%Q
  | None => LPriceNotFound (name m) (qty_needed m)
  end.

(** Exactly one of the four material lists is present, and it is [l]. *)
Definition populated {A} (s : specs A) (l : list A) : Prop :=
  (materials_per_item s = Some l ∧ materials_per_meter s = None ∧
   materials_per_cubic_meter s = None ∧ materials_per_sqm_20mm s = None) ∨
  (materials_per_item s = None ∧ materials_per_meter s = Some l ∧
   materials_per_cubic_meter s = None ∧ materials_per_sqm_20mm s = None) ∨
  (materials_per_item s = None ∧ materials_per_meter s = None ∧
   materials_per_cubic_meter s = Some l ∧ materials_per_sqm_20mm s = None) ∨
  (materials_per_item s = None ∧ materials_per_meter s = None ∧
   materials_per_cubic_meter s = None ∧ materials_per_sqm_20mm s = Some l).

(** ** Sample data *)

Module Sample.

(** An entry priced per item, one material of which has no price. *)
Definition signboard : specs material :=
  Specs "IRC:67-2012" (Some [Material "Aluminium Sheet" 2 "sqm";
                             Material "Retro Tape" 3 "m"]) None None None.

Definition prices : price_table :=
  {[ "Aluminium Sheet" := 10%Q; "Road Stud" := 100%Q; "Bitumen" := 5%Q ]}.

(** A store with three entries at references 0, 1 and 2 and their
    materials at 0, 1 and 2: road studs per meter, a per-square-meter
    entry, and a pothole per cubic meter. *)
Definition store : heap :=
  Heap (λ r, match r with
             | O => Specs "IRC:35-2015" None (Some [0%nat]) None None
             | S O => Specs "IRC:82-2015" None None None (Some [1%nat])
             | _ => Specs "IRC:82-2015" None None (Some [2%nat]) None
             end)
       (λ r, match r with
             | O => Material "Road Stud" (1 # 2) "nos"
             | _ => Material "Bitumen" 2 "kg"
             end)
       3.

End Sample.

(** ** Patterns found in a text *)

(** The first match of [pat] in [text] captures a number, [x]. *)
Definition found_number (pat : Re.t) (text : string) (x : Q) : Prop :=
  ∃ caps g, Re.search pat text = Some caps ∧ group1 caps = Ok g ∧ py_float g = Ok x.

(** The first chainage range of [text] goes from [start_km+start_m] to
    [end_km+end_m]. *)
Definition found_range (text : string) (start_km start_m end_km end_m : Z) : Prop :=
  ∃ g1 g2 g3 g4,
    Re.search pat_chainage_range text = Some [g1; g2; g3; g4] ∧
    py_int g1 = Ok start_km ∧ py_int g2 = Ok start_m ∧
    py_int g3 = Ok end_km ∧ py_int g4 = Ok end_m.

(** The number of studs for a stretch, in the words of the
    specification: one stud every 9 meters, on both edges. *)
Definition studs_for (start_km start_m end_km end_m : Z) : Q :=
  let length_m := Z.abs ((end_km * 1000 + end_m) - (start_km * 1000 + start_m)) in
  let studs_per_edge := Qceiling (inject_Z length_m / 9) in
  inject_Z (studs_per_edge * 2).

(** An entry whose material list is the per-cubic-meter one. *)
Definition per_cubic_meter_spec {A} (s : specs A) : Prop :=
  materials_per_item s = None ∧ materials_per_meter s = None ∧
  is_Some (materials_per_cubic_meter s).

Module SampleText.

Definition pothole_spec : specs material :=
  Specs "IRC:82-2015" None None (Some [Material "Bitumen" 2 "kg"]) None.

Definition pothole_report : string :=
  "Pothole at 5+300: area 12.5 sqm, 50 mm depth.".

Definition studs_report : string :=
  "Road Studs from 4+100 to 4+200.".

Definition studs_spec : specs material :=
  Specs "IRC:35-2015" None (Some [Material "Road Stud" (1 # 2) "nos"]) None None.

(** A report with a malformed area. *)
Definition malformed_report : string :=
  "Pothole: area 1.2.3 sqm, 50 mm depth".

(** The specification table for [app.py], and for [main.py] as
    references into [Sample.store]. *)
Definition app_database : list (string * specs material) :=
  [("Road Studs", studs_spec); ("Pothole", pothole_spec)].

Definition main_database : list (string * loc) :=
  [("Road Studs", 0%nat); ("Pothole", 2%nat)].

(** A report that mentions both. *)
Definition full_report : string := studs_report +:+ " " +:+ pothole_report.

End SampleText.

(** ** The shape of the groups of a pattern *)

(** The classes of the groups of a pattern, in order, for a pattern all of
    whose groups are a class repeated with [+]. *)
Fixpoint group_classes (r : Re.t) : list (ascii → bool) :=
  match r with
  | Re.Seq r1 r2 => group_classes r1 ++ group_classes r2
  | Re.Grp (Re.Plus p) => [p]
  | _ => []
  end.

Fixpoint simple_groups (r : Re.t) : bool :=
  match r with
  | Re.Seq r1 r2 => simple_groups r1 && simple_groups r2
  | Re.Grp (Re.Plus _) => true
  | Re.Grp _ => false
  | _ => true
  end.

(** A non-empty string of characters of the class [p]. *)
Definition run_of (p : ascii → bool) (g : string) : Prop :=
  g ≠ "" ∧ Str.forallb p g = true.

(** ** The totals a report shows *)

(** The total of an intervention, on the line that closes its breakdown. *)
Definition item_total_of (l : line) : option Q :=
  match l with
  | LTotal _ item_total_cost => Some item_total_cost
  | _ => None
  end.

Definition total_key_of (l : line) : option string :=
  match l with
  | LTotal intervention_key _ => Some intervention_key
  | _ => None
  end.

(** The item totals of a report, in order, and the interventions they
    belong to. *)
Definition item_totals (report : list line) : list Q := omap item_total_of report.
Definition total_keys (report : list line) : list string := omap total_key_of report.

(** The interventions of the table that a text mentions. *)
Definition matched {A} (text : string) (spec_database : list (string * A)) : list string :=
  filter (λ k, Str.contains (Str.lower k) (Str.lower text) = true) (spec_database.*1).

(** The price table and the specification table keep to the data model:
    no negative price, no negative quantity. *)
Definition prices_nonneg (prices : price_table) : Prop :=
  ∀ n p, prices !! n = Some p → (0 <= p)%Q.

Definition quantities_nonneg (spec_database : list (string * specs material)) : Prop :=
  ∀ key s m, (key, s) ∈ spec_database → m ∈ App.materials_list s → (0 <= quantity m)%Q.

(** The material cost of an entry of [results_list] is the sum over the
    priced materials of its intervention, at the quantity and unit the
    entry shows. *)
Definition priced_result (spec_database : list (string * specs material))
    (prices : price_table) (r : App.result_item) : Prop :=
  ∃ s, (App.Intervention r, s) ∈ spec_database ∧
       App.Material_Cost r =
         Qsum (map (λ m, App.qty_needed (App.Intervention r) (App.Unit r)
                           (App.Quantity r) m * unit_price prices m)%Q
                   (priced prices (App.materials_list s))).

(** * The rest of [app.py] *)

(** [s[a:b]] for [0 <= a]: the characters from position [a] up to, not
    including, position [b]. *)
Fixpoint skip (n : nat) (s : string) : string :=
  match n, s with
  | O, _ => s
  | S n', String _ s' => skip n' s'
  | S _, EmptyString => EmptyString
  end.

Definition slice (a b : nat) (s : string) : string := Str.take (b - a) (skip a s).

(** [(\d+\+\d+)] *)
Definition pat_chainage : Re.t :=
  Re.Grp (Re.cat [Re.Plus Str.is_digit; Re.Lit "+"; Re.Plus Str.is_digit]).

(** ** The map *)

Module Map.

(** Line 127-128. *)
Definition START_GPS : value := VTuple [VNum 10.310709; VNum 77.944926].
Definition END_GPS : value := VTuple [VNum 10.306490; VNum 77.943170].
Definition START_CH : option Z := App.parse_chainage "4+100".
Definition END_CH : option Z := App.parse_chainage "362+500".

(** An entry of [map_data]. *)
Record map_entry := MapEntry {
  entry_name : string;
  lat : value;
  lon : value
}.

(** Line 174: the 150 characters before a match, fewer at the start of
    the text. *)
Definition search_window (full_report_text : string) (match_start : nat) : string :=
  slice (match_start - 150) match_start full_report_text.

(** Lines 173-176, the loop over the matches, given where they start. *)
Fixpoint first_chainage (full_report_text : string) (match_starts : list nat)
    : py (option string) :=
  match match_starts with
  | [] => Ok None
  | match_start :: rest =>
      match Re.search pat_chainage (search_window full_report_text match_start) with
      | Some caps => g ← group1 caps; Ok (Some g)
      | None => first_chainage full_report_text rest
      end
  end.

(** Lines 171-177.  [matches] stands for
    [re.finditer(intervention_key.lower(), full_report_text_lower)], the
    key taken as a pattern: the positions where its matches start, or the
    exception of a key that is not a pattern.  Whatever is raised is
    dropped and leaves [found_ch_str] at [None]. *)
Definition find_chainage (matches : py (list nat)) (full_report_text : string)
    : option string :=
  try_except
    (match_starts ← matches; first_chainage full_report_text match_starts)
    None.

(** A number or [None] as a value. *)
Definition of_chainage (ch : option Z) : value :=
  match ch with
  | Some n => VNum (inject_Z n)
  | None => VNone
  end.

(** [lat, lon = v] *)
Definition unpack2 (v : value) : py (value * value) :=
  match v with
  | VTuple [a; b] => Ok (a, b)
  | VTuple _ => Raise ValueError
  | VStr (String a (String b EmptyString)) =>
      Ok (VStr (String a EmptyString), VStr (String b EmptyString))
  | VStr _ => Raise ValueError
  | VNone | VNum _ => Raise TypeError
  end.

(** Lines 208-212: what an intervention with a positive cost adds to
    [map_data]. *)
Definition map_point (intervention_key : string) (found_ch_str : option string)
    : py (list map_entry) :=
  match found_ch_str with
  | Some (String c rest as label) =>
      let chainage_m := App.parse_chainage label in
      match chainage_m with
      | Some n =>
          if n =? 0 then Ok []
          else
            '(la, lo) ← unpack2 (App.interpolate_gps (of_chainage chainage_m)
                                   (of_chainage START_CH) (of_chainage END_CH)
                                   START_GPS END_GPS);
            Ok [MapEntry (intervention_key +:+ " (at " +:+ label +:+ ")") la lo]
      | None => Ok []
      end
  | _ => Ok []
  end.

(** Lines 206-212 for one intervention: nothing goes on the map unless
    the intervention has a positive cost. *)
Definition map_step (intervention_key : string) (item_total_cost : Q)
    (found_ch_str : option string) : py (list map_entry) :=
  if Qlt_le_dec 0 item_total_cost then map_point intervention_key found_ch_str
  else Ok [].

End Map.

(** ** The summary figures *)

(** [max(results_list, key=lambda item: item['Material Cost (₹)'])] for a
    list that is not empty: the first entry is kept until a later one
    costs strictly more. *)
Definition max_by_cost (first : App.result_item) (others : list App.result_item)
    : App.result_item :=
  fold_left (λ best item,
               if Qlt_le_dec (App.Material_Cost best) (App.Material_Cost item)
               then item else best)
            others first.

(** Line 225-226: the most expensive item, [None] where the dashboard
    shows "N/A". *)
Definition most_expensive (results_list : list App.result_item)
    : option App.result_item :=
  match results_list with
  | [] => None
  | first :: others => Some (max_by_cost first others)
  end.

(** ** The manual tab *)

Module Manual.

(** An entry of [st.session_state.manual_items]. *)
Record manual_item := ManualItem {
  item_key : string;
  item_quantity : Q;
  item_unit : string
}.

(** [spec_database[key]] on the table as the sequence of its items. *)
Fixpoint dict_get (spec_database : list (string * specs material)) (key : string)
    : py (specs material) :=
  match spec_database with
  | [] => Raise KeyError
  | (k, s) :: rest => if String.eqb k key then Ok s else dict_get rest key
  end.

(** Lines 293-296. *)
Definition default_unit (s : specs material) : string :=
  if has (materials_per_meter s) then "meter(s)"
  else if has (materials_per_cubic_meter s) then "m^3"
  else if has (materials_per_sqm_20mm s) then "sqm (at 20mm depth)"
  else "item".

(** [default_unit.split('(')[0].strip()] *)
Definition stored_unit (default_unit : string) : py string :=
  p0 ← list_index (Str.split "(" default_unit) 0;
  Ok (Str.strip p0).

(** Lines 290-303: the form, submitted with an intervention of the table
    and a quantity. *)
Definition add_item (spec_database : list (string * specs material))
    (manual_items : list manual_item) (selected_item : string) (quantity : Q)
    : py (list manual_item) :=
  s ← dict_get spec_database selected_item;
  u ← stored_unit (default_unit s);
  Ok (manual_items ++ [ManualItem selected_item quantity u]).

(** Line 354. *)
Definition qty_needed (quantity_found : Q) (m : material) : Q :=
  (quantity m * quantity_found)%Q.

(** Lines 335-367, one turn of the loop over the manual items. *)
Definition iteration (spec_database : list (string * specs material))
    (manual_editable_prices : price_table) (st : App.state) (item : manual_item)
    : py App.state :=
  let intervention_key := item_key item in
  let quantity_found := item_quantity item in
  let unit_type := item_unit item in
  s ← dict_get spec_database intervention_key;
  let report := App.report_lines st ++
                  [LIntervention (Str.upper intervention_key);
                   LQuantity quantity_found unit_type;
                   LSource (source_clause s); LBreakdown] in
  let '(item_total_cost, report) :=
    cost_loop (qty_needed quantity_found) manual_editable_prices
      (App.materials_list s) report in
  let report := report ++ [LTotal intervention_key item_total_cost] in
  let total := (App.total_project_cost st + item_total_cost)%Q in
  if Qlt_le_dec 0 item_total_cost then
    Ok (App.State total report
          (App.results_list st ++
           [App.ResultItem intervention_key quantity_found unit_type (source_clause s)
                           item_total_cost]))
  else Ok (App.State total report (App.results_list st)).

(** Lines 330-370: "Calculate Manual Cost". *)
Definition calculate (spec_database : list (string * specs material))
    (manual_items : list manual_item) (manual_editable_prices : price_table)
    : py App.state :=
  st ← for_in manual_items (iteration spec_database manual_editable_prices)
         (App.State 0 [] []);
  Ok (App.State (App.total_project_cost st)
                (App.report_lines st ++ [LSummary (App.total_project_cost st)])
                (App.results_list st)).

End Manual.

(** A report that gives the chainage before it names the intervention;
    the key "pothole" starts at position 16. *)
Definition map_report : string :=
  "Chainage 5+300: pothole, area 12.5 sqm, 50 mm depth.".

(** The entries of [results_list] entered by hand: the same
    interventions, quantities and units as items of the manual list. *)
Definition to_items (results_list : list App.result_item) : list Manual.manual_item :=
  (λ r, Manual.ManualItem (App.Intervention r) (App.Quantity r) (App.Unit r))
    <$> results_list.

(** Two entries that show the same intervention, quantity and unit and
    the same cost. *)
Definition same_result (r r' : App.result_item) : Prop :=
  App.Intervention r = App.Intervention r' ∧ App.Quantity r = App.Quantity r' ∧
  App.Unit r = App.Unit r' ∧ App.Source_Clause r = App.Source_Clause r' ∧
  (App.Material_Cost r == App.Material_Cost r')%Q.

(** An entry of [results_list] as the PDF tab makes it: for an
    intervention of the table, with its citation and, as cost, the
    positive sum over its priced materials. *)
Definition result_of (spec_database : list (string * specs material))
    (prices : price_table) (r : App.result_item) : Prop :=
  ∃ s, (App.Intervention r, s) ∈ spec_database ∧
       App.Source_Clause r = source_clause s ∧
       (0 < App.Material_Cost r)%Q ∧
       App.Material_Cost r =
         Qsum (map (λ m, App.qty_needed (App.Intervention r) (App.Unit r)
                           (App.Quantity r) m * unit_price prices m)%Q
                   (priced prices (App.materials_list s))).

(** The quantities entered by hand are not negative (the form takes 0.01
    at least). *)
Definition item_quantities_nonneg (items : list Manual.manual_item) : Prop :=
  Forall (λ item, 0 <= Manual.item_quantity item)%Q items.

(** * The store across a run of [main.py] *)

(** What a run may do to the store: allocate, and overwrite the quantity
    of a material with 1.  Entries that exist keep their lists; materials
    keep their names and units. *)
Definition frame (h h' : heap) : Prop :=
  (next h ≤ next h')%nat ∧
  (∀ r, (r < next h)%nat → dicts h' r = dicts h r) ∧
  (∀ m, name (mats h' m) = name (mats h m) ∧ unit (mats h' m) = unit (mats h m) ∧
        (quantity (mats h' m) = quantity (mats h m) ∨ quantity (mats h' m) = 1%Q)).

(** The material [m] is the first of the per-meter list of an entry for
    road studs that the text mentions. *)
Definition first_stud_material (spec_database : list (string * loc)) (text : string)
    (h : heap) (m : loc) : Prop :=
  ∃ key r rest,
    (key, r) ∈ spec_database ∧ Str.lower key = "road studs" ∧
    key ∈ matched text spec_database ∧
    materials_per_meter (dicts h r) = Some (m :: rest).

(** An entry of the store with its materials read out: the entry as
    [app.py] has it. *)
Definition view (h : heap) (s : specs loc) : specs material :=
  let read := option_map (λ l : list loc, mats h <$> l) in
  Specs (source_clause s)
        (read (materials_per_item s))
        (read (materials_per_meter s))
        (read (materials_per_cubic_meter s))
        (read (materials_per_sqm_20mm s)).

Definition view_database (h : heap) (spec_database : list (string * loc))
    : list (string * specs material) :=
  (λ e, (e.1, view h (dicts h e.2))) <$> spec_database.

(** Exactly one of the per-item, per-meter and per-cubic-meter lists is
    present. *)
Definition one_of_three {A} (s : specs A) : Prop :=
  match materials_per_item s, materials_per_meter s, materials_per_cubic_meter s with
  | Some _, None, None | None, Some _, None | None, None, Some _ => True
  | _, _, _ => False
  end.

(** An entry both programs treat alike: not for road studs, and with
    exactly one of the three lists [main.py] knows. *)
Definition common_entry (h : heap) (e : string * loc) : Prop :=
  Str.lower e.1 ≠ "road studs" ∧ one_of_three (dicts h e.2).
(** * Properties *)

(** ** Strings and conversions *)

Lemma forallb_split (P : ascii → bool) (sep : ascii) (s : string) :
  Str.forallb P s = true →
  Forall (λ part, Str.forallb P part = true) (Str.split sep s).
Proof.
  induction s as [|c s IH]; simpl; intros H.
  - repeat constructor.
  - apply andb_true_iff in H as [Hc Hs]. specialize (IH Hs).
    destruct (Ascii.eqb c sep).
    + constructor; [reflexivity | exact IH].
    + destruct (Str.split sep s) as [|part parts].
      * repeat constructor. simpl. rewrite Hc. reflexivity.
      * inversion IH; subst. constructor; [|assumption].
        simpl. rewrite Hc. assumption.
Qed.

Lemma split_nonempty (sep : ascii) (s : string) : Str.split sep s ≠ [].
Proof.
  destruct s as [|c s]; simpl; [discriminate|].
  destruct (Ascii.eqb c sep); [discriminate|].
  destruct (Str.split sep s); discriminate.
Qed.

Lemma rstrip_no_space (s : string) :
  Str.forallb (λ c, negb (Str.is_space c)) s = true → Str.rstrip s = s.
Proof.
  induction s as [|c s IH]; simpl; [reflexivity|].
  intros H. apply andb_true_iff in H as [Hc Hs].
  rewrite (IH Hs). apply negb_true_iff in Hc. rewrite Hc.
  destruct s; reflexivity.
Qed.

Lemma strip_no_space (s : string) :
  Str.forallb (λ c, negb (Str.is_space c)) s = true → Str.strip s = s.
Proof.
  intros H. unfold Str.strip.
  assert (Str.lstrip s = s) as ->; [|by apply rstrip_no_space].
  destruct s as [|c s]; simpl in *; [reflexivity|].
  apply andb_true_iff in H as [Hc _]. apply negb_true_iff in Hc.
  by rewrite Hc.
Qed.

Lemma lenient_weaken (s : string) :
  Str.forallb (λ c, negb (lenient_char c)) s = true →
  Str.forallb (λ c, negb (Str.is_space c)) s = true.
Proof.
  induction s as [|c s IH]; simpl; [reflexivity|].
  intros H. apply andb_true_iff in H as [Hc Hs]. rewrite (IH Hs).
  unfold lenient_char in Hc. rewrite !negb_orb in Hc.
  apply andb_true_iff in Hc as [_ ->]. reflexivity.
Qed.

(** Without underscores, [int_body] reads a run of digits. *)
Lemma int_body_plain (s : string) (acc : Z) (after_digit : bool) :
  Str.forallb (λ c, negb (lenient_char c)) s = true →
  int_body acc after_digit s =
    if Str.forallb Str.is_digit s
    then (match s with
          | EmptyString => if after_digit then Some acc else None
          | _ => Str.digits_val acc s
          end)
    else None.
Proof.
  revert acc after_digit.
  induction s as [|c s IH]; intros acc b H; simpl; [reflexivity|].
  simpl in H. apply andb_true_iff in H as [Hc Hs].
  destruct (Str.is_digit c) eqn:Hd; simpl.
  - rewrite (IH _ _ Hs). destruct s; simpl; [reflexivity|].
    reflexivity.
  - unfold lenient_char in Hc. rewrite !negb_orb in Hc.
    apply andb_true_iff in Hc as [Hc _]. apply andb_true_iff in Hc as [_ Hu].
    apply negb_true_iff in Hu. rewrite Hu. reflexivity.
Qed.

(** [int()] on a string with no sign, underscore or space: the number it
    spells, or [ValueError]. *)
Lemma py_int_plain (s : string) :
  Str.forallb (λ c, negb (lenient_char c)) s = true →
  Str.forallb (λ c, negb (Ascii.eqb c "+")) s = true →
  py_int s =
    match (if Str.is_number s then Str.digits_val 0 s else None) with
    | Some n => Ok n
    | None => Raise ValueError
    end.
Proof.
  intros H Hplus. unfold py_int.
  rewrite (strip_no_space s (lenient_weaken s H)).
  destruct s as [|c s]; [reflexivity|].
  assert (Ascii.eqb c "-" = false) as ->.
  { simpl in H. apply andb_true_iff in H as [Hc _].
    unfold lenient_char in Hc. rewrite !negb_orb in Hc.
    apply andb_true_iff in Hc as [Hc _]. apply andb_true_iff in Hc as [Hc _].
    by apply negb_true_iff in Hc. }
  assert (Ascii.eqb c "+" = false) as ->.
  { simpl in Hplus. apply andb_true_iff in Hplus as [Hc _].
    by apply negb_true_iff in Hc. }
  rewrite (int_body_plain _ 0 false H).
  unfold Str.is_number.
  destruct (Str.forallb Str.is_digit (String c s)); [|reflexivity].
  destruct (Str.digits_val 0 (String c s)) as [n|]; [|reflexivity].
  f_equal. lia.
Qed.

Lemma split_no_sep (sep : ascii) (s : string) :
  Forall (λ part, Str.forallb (λ c, negb (Ascii.eqb c sep)) part = true)
         (Str.split sep s).
Proof.
  induction s as [|c s IH]; simpl.
  - repeat constructor.
  - destruct (Ascii.eqb c sep) eqn:Hc.
    + constructor; [reflexivity | exact IH].
    + destruct (Str.split sep s) as [|part parts].
      * repeat constructor. simpl. rewrite Hc. reflexivity.
      * inversion IH; subst. constructor; [|assumption].
        simpl. rewrite Hc. assumption.
Qed.

(** ** The matcher *)

Lemma take_length_app (pre s : string) :
  Str.take (String.length (pre +:+ s) - String.length s) (pre +:+ s) = pre.
Proof.
  assert (∀ n, Str.take (String.length pre + n - n) (pre +:+ s) = pre) as H.
  { intros n. replace (String.length pre + n - n)%nat with (String.length pre) by lia.
    clear n. induction pre as [|c pre IH]; simpl.
    - destruct s; reflexivity.
    - by rewrite IH. }
  assert (String.length (pre +:+ s) = (String.length pre + String.length s)%nat) as ->.
  { clear H. induction pre; simpl; [reflexivity | by rewrite IHpre]. }
  apply H.
Qed.

(** A greedy repetition hands over a suffix, having taken characters of
    its class. *)
Lemma star_inv {R} (p : ascii → bool) (s : string) (k : string → option R) (res : R) :
  Re.star p s k = Some res →
  ∃ pre s', s = pre +:+ s' ∧ Str.forallb p pre = true ∧ k s' = Some res.
Proof.
  induction s as [|c s IH]; simpl; intros H.
  - exists "", "". auto.
  - destruct (p c) eqn:Hc.
    + destruct (Re.star p s k) as [r|] eqn:Hs.
      * injection H as ->.
        destruct (IH eq_refl) as (pre & s' & -> & Hpre & Hk).
        exists (String c pre), s'. simpl. rewrite Hc, Hpre. auto.
      * exists "", (String c s). auto.
    + exists "", (String c s). auto.
Qed.

(** Where matching succeeds, the continuation was given the groups so
    far followed by one run per group of the pattern. *)
Lemma run_caps {R} (r : Re.t) :
  simple_groups r = true →
  ∀ (s : string) (caps : list string) (k : string → list string → option R) (res : R),
    Re.run r s caps k = Some res →
    ∃ s' new, k s' (caps ++ new) = Some res ∧
              Forall2 run_of (group_classes r) new.
Proof.
  induction r as [| c | p | p | r1 IH1 r2 IH2 | r IH]; intros Hs s caps k res H; simpl in *.
  - exists s, []. rewrite app_nil_r. auto.
  - destruct s as [|c' s]; [discriminate|].
    destruct (Ascii.eqb _ _); [|discriminate].
    exists s, []. rewrite app_nil_r. auto.
  - apply star_inv in H as (pre & s' & _ & _ & Hk).
    exists s', []. rewrite app_nil_r. auto.
  - destruct s as [|c s]; [discriminate|].
    destruct (p c); [|discriminate].
    apply star_inv in H as (pre & s' & _ & _ & Hk).
    exists s', []. rewrite app_nil_r. auto.
  - apply andb_true_iff in Hs as [Hs1 Hs2].
    apply (IH1 Hs1) in H as (s1 & new1 & H & Hn1).
    apply (IH2 Hs2) in H as (s2 & new2 & H & Hn2).
    exists s2, (new1 ++ new2). rewrite app_assoc. split; [exact H|].
    by apply Forall2_app.
  - destruct r as [| | | p | |]; try discriminate. simpl in H.
    destruct s as [|c s]; [discriminate|].
    destruct (p c) eqn:Hc; [|discriminate].
    apply star_inv in H as (pre & s' & -> & Hpre & Hk).
    exists s', [String c pre]. split.
    + unfold Re.consumed in Hk.
      change (String c (pre +:+ s')) with (String c pre +:+ s') in Hk.
      by rewrite take_length_app in Hk.
    + constructor; [|constructor]. split; [discriminate|].
      simpl. by rewrite Hc, Hpre.
Qed.

Lemma search_caps (r : Re.t) (s : string) (caps : list string) :
  simple_groups r = true →
  Re.search r s = Some caps →
  Forall2 run_of (group_classes r) caps.
Proof.
  intros Hs. induction s as [|c s IH]; simpl; unfold Re.match_here.
  - destruct (Re.run r "" [] _) as [caps'|] eqn:Hrun; [|discriminate].
    intros [= <-]. apply (run_caps r Hs) in Hrun as (s' & new & [= <-] & Hn).
    exact Hn.
  - destruct (Re.run r (String c s) [] _) as [caps'|] eqn:Hrun; [|exact IH].
    intros [= <-]. apply (run_caps r Hs) in Hrun as (s' & new & [= <-] & Hn).
    exact Hn.
Qed.

(** ** Chainage labels *)

Lemma parse_chainage_parts (s : string) :
  App.parse_chainage s =
    match Str.split "+" s with
    | [p0; p1] =>
        match py_int p0, py_int p1 with
        | Ok km, Ok m => Some (km * 1000 + m)
        | _, _ => None
        end
    | p0 :: _ =>
        match py_int p0 with
        | Ok n => Some n
        | Raise _ => None
        end
    | [] => None
    end.
Proof.
  unfold App.parse_chainage.
  destruct (Str.split "+" s) as [|p0 [|p1 [|p2 rest]]]; simpl; try reflexivity.
  - destruct (py_int p0); reflexivity.
  - destruct (py_int p0); simpl; [|reflexivity].
    destruct (py_int p1); reflexivity.
  - destruct (py_int p0); reflexivity.
Qed.




(** ** Numbers read from the text are not negative *)

Lemma digit_not_lenient (c : ascii) :
  Str.is_digit c = true → negb (lenient_char c) = true ∧ negb (Ascii.eqb c "+") = true
                          ∧ negb (Ascii.eqb c ".") = true.
Proof.
  destruct c as [[] [] [] [] [] [] [] []]; vm_compute; intros H;
    first [discriminate H | repeat split].
Qed.

Lemma digits_plain (s : string) :
  Str.forallb Str.is_digit s = true →
  Str.forallb (λ c, negb (lenient_char c)) s = true ∧
  Str.forallb (λ c, negb (Ascii.eqb c "+")) s = true ∧
  Str.forallb (λ c, negb (Ascii.eqb c ".")) s = true.
Proof.
  induction s as [|c s IH]; simpl; [auto|].
  intros H. apply andb_true_iff in H as [Hc Hs].
  destruct (digit_not_lenient c Hc) as (-> & -> & ->).
  destruct (IH Hs) as (-> & -> & ->). auto.
Qed.

Lemma digit_val_nonneg (c : ascii) : Str.is_digit c = true → 0 ≤ Str.digit_val c.
Proof.
  unfold Str.is_digit, Str.digit_val. intros H.
  apply andb_true_iff in H as [H _]. apply N.leb_le in H. lia.
Qed.

Lemma digits_val_nonneg (s : string) (acc v : Z) :
  Str.digits_val acc s = Some v → 0 ≤ acc → 0 ≤ v.
Proof.
  revert acc. induction s as [|c s IH]; simpl; intros acc H Hacc.
  - injection H as <-. exact Hacc.
  - destruct (Str.is_digit c) eqn:Hc; [|discriminate].
    apply (IH _ H). pose proof (digit_val_nonneg c Hc). lia.
Qed.

Lemma digits_val_total (s : string) (acc : Z) :
  Str.forallb Str.is_digit s = true → ∃ v, Str.digits_val acc s = Some v.
Proof.
  revert acc. induction s as [|c s IH]; simpl; intros acc H; [eauto|].
  apply andb_true_iff in H as [-> Hs]. apply (IH _ Hs).
Qed.

Lemma split_without_sep (sep : ascii) (s : string) :
  Str.forallb (λ c, negb (Ascii.eqb c sep)) s = true → Str.split sep s = [s].
Proof.
  induction s as [|c s IH]; simpl; [reflexivity|].
  intros H. apply andb_true_iff in H as [Hc Hs].
  apply negb_true_iff in Hc. rewrite Hc, (IH Hs). reflexivity.
Qed.

(** [int()] of a run of digits is the number it spells. *)
Lemma py_int_digits (g : string) :
  run_of Str.is_digit g → ∃ v, py_int g = Ok v ∧ Str.digits_val 0 g = Some v ∧ 0 ≤ v.
Proof.
  intros [Hne Hd].
  destruct (digits_plain g Hd) as (Hplain & Hplus & _).
  rewrite (py_int_plain g Hplain Hplus).
  destruct (digits_val_total g 0 Hd) as [v Hv].
  exists v. unfold Str.is_number. destruct g; [done|].
  rewrite Hd, Hv. repeat split. by apply (digits_val_nonneg _ _ _ Hv).
Qed.

(** [float()] of a run of digits is the number it spells. *)
Lemma py_float_digits (g : string) :
  run_of Str.is_digit g → ∃ v, py_float g = Ok (inject_Z v) ∧ 0 ≤ v.
Proof.
  intros [Hne Hd].
  destruct (digits_plain g Hd) as (_ & _ & Hdot).
  unfold py_float. rewrite (split_without_sep _ g Hdot).
  destruct (digits_val_total g 0 Hd) as [v Hv].
  exists v. destruct g; [done|]. rewrite Hv.
  split; [reflexivity|]. by apply (digits_val_nonneg _ _ _ Hv).
Qed.

Lemma py_float_nonneg (g : string) (q : Q) : py_float g = Ok q → (0 <= q)%Q.
Proof.
  unfold py_float.
  destruct (Str.split "." g) as [|i [|f [|? ?]]]; try discriminate.
  - destruct i; [discriminate|].
    destruct (Str.digits_val 0 _) as [n|] eqn:Hn; [|discriminate].
    intros [= <-]. apply (digits_val_nonneg _ _ _) in Hn; [|lia].
    unfold Qle. simpl. lia.
  - destruct (Str.digits_val 0 i) as [n|] eqn:Hn; [|discriminate].
    destruct (Str.digits_val 0 f) as [m|] eqn:Hm; [|discriminate].
    destruct (_ =? _)%nat; [discriminate|].
    intros [= <-].
    apply (digits_val_nonneg _ _ _) in Hn; [|lia].
    apply (digits_val_nonneg _ _ _) in Hm; [|lia].
    unfold Qle. simpl. nia.
Qed.

Lemma count_from_nonneg (p s : string) (skip : nat) : 0 ≤ Str.count_from p s skip.
Proof.
  revert skip. induction s as [|c s IH]; intros skip; simpl; [lia|].
  destruct skip; [|apply IH].
  destruct (Str.startswith p (String c s)); [|apply IH].
  specialize (IH (String.length p - 1)%nat). lia.
Qed.

Lemma count_nonneg (p s : string) : 0 ≤ Str.count p s.
Proof.
  unfold Str.count. destruct p; [lia | apply count_from_nonneg].
Qed.

Lemma studs_for_nonneg (a b c d : Z) : (0 <= studs_for a b c d)%Q.
Proof.
  unfold studs_for.
  assert (0 ≤ Qceiling (inject_Z (Z.abs (c * 1000 + d - (a * 1000 + b))) / 9)) as H.
  { change 0 with (Qceiling 0). apply Qceiling_resp_le.
    apply Qle_shift_div_l; [reflexivity|].
    rewrite Qmult_0_l. change 0%Q with (inject_Z 0). rewrite <- Zle_Qle. lia. }
  change 0%Q with (inject_Z 0). rewrite <- Zle_Qle. lia.
Qed.

Lemma studs_of_range_spec (caps : list string) :
  Forall2 run_of (group_classes pat_chainage_range) caps →
  ∃ g1 g2 g3 g4 a b c d,
    caps = [g1; g2; g3; g4] ∧
    py_int g1 = Ok a ∧ py_int g2 = Ok b ∧ py_int g3 = Ok c ∧ py_int g4 = Ok d ∧
    studs_of_range caps = Ok (studs_for a b c d).
Proof.
  simpl. intros H.
  inversion H as [|? g1 ? ? H1 H']; subst.
  inversion H' as [|? g2 ? ? H2 H'']; subst.
  inversion H'' as [|? g3 ? ? H3 H''']; subst.
  inversion H''' as [|? g4 ? ? H4 Hnil]; subst.
  inversion Hnil; subst.
  destruct (py_int_digits g1 H1) as (a & Ha & _).
  destruct (py_int_digits g2 H2) as (b & Hb & _).
  destruct (py_int_digits g3 H3) as (c & Hc & _).
  destruct (py_int_digits g4 H4) as (d & Hd & _).
  exists g1, g2, g3, g4, a, b, c, d. repeat split; try assumption.
  unfold studs_of_range. rewrite Ha. simpl. rewrite Hb. simpl.
  rewrite Hc. simpl. rewrite Hd. reflexivity.
Qed.

(** ** Interpolation along the reference line *)

Lemma interpolate_gps_numbers (o rs re s0 s1 e0 e1 : Q) :
  ¬ (re - rs == 0)%Q →
  App.interpolate_gps (VNum o) (VNum rs) (VNum re)
      (VTuple [VNum s0; VNum s1]) (VTuple [VNum e0; VNum e1]) =
    VTuple [VNum (s0 + (e0 - s0) * clamp ((o - rs) / (re - rs)));
            VNum (s1 + (e1 - s1) * clamp ((o - rs) / (re - rs)))]%Q.
Proof.
  intros Hne. unfold App.interpolate_gps, py_div. simpl.
  destruct (Qeq_bool (re - rs) 0) eqn:Hb.
  - apply Qeq_bool_iff in Hb. contradiction.
  - reflexivity.
Qed.

Lemma interpolate_gps_degenerate (chainage_m start_gps end_gps : value) (rs re : Q) :
  (re == rs)%Q →
  App.interpolate_gps chainage_m (VNum rs) (VNum re) start_gps end_gps = start_gps.
Proof.
  intros Heq. unfold App.interpolate_gps, py_div.
  destruct chainage_m; simpl; try reflexivity.
  assert (Qeq_bool (re - rs) 0 = true) as ->; [|reflexivity].
  apply Qeq_bool_iff. lra.
Qed.

Lemma interpolate_gps_malformed (chainage_m start_ch end_ch start_gps end_gps : value) :
  well_formed chainage_m start_ch end_ch start_gps end_gps = false →
  App.interpolate_gps chainage_m start_ch end_ch start_gps end_gps = start_gps.
Proof.
  unfold well_formed, App.interpolate_gps. intros H.
  destruct chainage_m as [| o | |]; simpl; try reflexivity.
  destruct start_ch as [| rs | |]; simpl; try reflexivity.
  destruct end_ch as [| re | |]; simpl; try reflexivity.
  simpl in H.
  destruct (py_div (o - rs) (re - rs)) as [fraction|]; simpl; [|reflexivity].
  fold (clamp fraction). generalize (clamp fraction). intros f.
  unfold py_index, py_sub, py_add_num.
  destruct start_gps as [| | s | [|[| a | |] [|[| b | |] ?]]];
    destruct end_gps as [| | s' | [|[| c | |] [|[| d | |] ?]]];
    simpl in *; try reflexivity; try discriminate;
    repeat match goal with
           | |- context [String.get ?i ?x] => destruct (String.get i x); simpl
           end; reflexivity.
Qed.

Lemma clamp_zero (x : Q) : (x <= 0)%Q → (clamp x == 0)%Q.
Proof.
  intros Hx. unfold clamp.
  destruct (Qlt_le_dec x 0); destruct (Qlt_le_dec 1 _); lra.
Qed.

Lemma clamp_one (x : Q) : (1 <= x)%Q → (clamp x == 1)%Q.
Proof.
  intros Hx. unfold clamp.
  destruct (Qlt_le_dec x 0); destruct (Qlt_le_dec 1 _); lra.
Qed.




(** ** The cost loop *)

Section CostLoopFacts.
Variable qty_needed : material → Q.
Variable prices : price_table.

Lemma cost_loop_from (ms : list material) (total : Q) (report : list line) :
  fold_left (cost_step qty_needed prices) ms (total, report) =
    (fold_left Qplus
       (map (λ m, qty_needed m * unit_price prices m)%Q (priced prices ms)) total,
     report ++ map (cost_line qty_needed prices) ms).
Proof.
  revert total report.
  induction ms as [|m ms IH]; intros total report; simpl.
  - by rewrite app_nil_r.
  - unfold priced in *. rewrite filter_cons.
    assert (cost_step qty_needed prices (total, report) m =
            (if decide (is_Some (prices !! name m))
             then (total + qty_needed m * unit_price prices m)%Q else total,
             report ++ [cost_line qty_needed prices m])) as ->.
    { unfold cost_step, cost_line, unit_price. simpl.
      destruct (prices !! name m) as [p|]; reflexivity. }
    rewrite IH, <- app_assoc. simpl.
    destruct (decide (is_Some (prices !! name m))); reflexivity.
Qed.

(** What the loop leaves in [item_total_cost] and in the report. *)
Lemma cost_loop_spec (ms : list material) (report : list line) :
  cost_loop qty_needed prices ms report =
    (Qsum (map (λ m, qty_needed m * unit_price prices m)%Q (priced prices ms)),
     report ++ map (cost_line qty_needed prices) ms).
Proof. apply cost_loop_from. Qed.
End CostLoopFacts.

Lemma fold_Qplus_proper (xs ys : list Q) (a b : Q) :
  Forall2 Qeq xs ys → (a == b)%Q →
  (fold_left Qplus xs a == fold_left Qplus ys b)%Q.
Proof.
  intros H. revert a b.
  induction H as [|x y xs ys Hxy _ IH]; intros a b Hab; simpl; [exact Hab|].
  apply IH. by rewrite Hxy, Hab.
Qed.

Lemma Qsum_proper (xs ys : list Q) : Forall2 Qeq xs ys → (Qsum xs == Qsum ys)%Q.
Proof. intros H. apply fold_Qplus_proper; [exact H | reflexivity]. Qed.

Lemma Qsum_map_ext {A} (f g : A → Q) (l : list A) :
  (∀ x, (f x == g x)%Q) → (Qsum (map f l) == Qsum (map g l))%Q.
Proof.
  intros H. apply Qsum_proper.
  induction l; simpl; constructor; auto.
Qed.

Lemma app_materials_list_populated (s : specs material) (l : list material) :
  populated s l → App.materials_list s = l.
Proof.
  unfold App.materials_list.
  intros [(H1 & H2 & H3 & H4) | [(H1 & H2 & H3 & H4) |
          [(H1 & H2 & H3 & H4) | (H1 & H2 & H3 & H4)]]];
    rewrite ?H1, ?H2, ?H3, ?H4; reflexivity.
Qed.

Lemma main_materials_list_populated {A} (s : specs A) (l : list A) :
  populated s l → materials_per_sqm_20mm s = None → Main.materials_list s = l.
Proof.
  unfold Main.materials_list.
  intros [(H1 & H2 & H3 & H4) | [(H1 & H2 & H3 & H4) |
          [(H1 & H2 & H3 & H4) | (H1 & H2 & H3 & H4)]]] H;
    rewrite ?H1, ?H2, ?H3; simpl; rewrite ?app_nil_r; try reflexivity.
  congruence.
Qed.

Lemma app_qty_needed (key unit_type : string) (q : Q) (m : material) :
  (App.qty_needed key unit_type q m == quantity m * q)%Q.
Proof.
  unfold App.qty_needed.
  destruct (_ && _); ring.
Qed.

(** C1 (as amended): for an entry with exactly one material list [l] -
    in [main.py] one of the three lists that program reads -, any
    quantity and any price table, [item_total_cost] is the sum, in the
    order of the list, of [qty_needed * unit_price] over the materials of
    [l] whose name is in the price table, with
    [qty_needed = requirement.quantity * quantity]; the value is a
    function of the entry, the quantity and the prices alone. *)
Theorem item_total_is_priced_sum :
  (∀ (intervention_key unit_type : string) (s : specs material) (l : list material)
     (quantity_found : Q) (prices : price_table) (report : list line),
     populated s l →
     ((App.calculate_cost intervention_key unit_type s quantity_found prices report).1
      == Qsum (map (λ m, quantity m * quantity_found * unit_price prices m)
                   (priced prices l)))%Q) ∧
  (∀ (specs_ref : loc) (l : list loc) (quantity_found : Q) (prices : price_table)
     (report : list line) (h : heap),
     populated (dicts h specs_ref) l →
     materials_per_sqm_20mm (dicts h specs_ref) = None →
     ∃ lines,
       Main.calculate_cost specs_ref quantity_found prices report h =
         Ok ((Qsum (map (λ m, quantity m * quantity_found * unit_price prices m)
                        (priced prices (mats h <$> l))),
              lines), h))%Q.
Proof.
  split.
  - intros key unit_type s l q prices report Hpop.
    unfold App.calculate_cost. rewrite cost_loop_spec. simpl.
    rewrite (app_materials_list_populated s l Hpop).
    apply Qsum_map_ext. intros m. by rewrite app_qty_needed.
  - intros specs_ref l q prices report h Hpop Hsqm.
    unfold Main.calculate_cost, dict_read, get_heap, mbind, M_bind, mret, M_ret.
    rewrite cost_loop_spec.
    rewrite (main_materials_list_populated _ l Hpop Hsqm).
    eexists. reflexivity.
Qed.

(** A per-item entry with one priced material out of two, and the
    per-cubic-meter entry of the sample store. *)
Lemma item_total_is_priced_sum_witness :
  ((App.calculate_cost "signboard" "item" Sample.signboard 4 Sample.prices []).1
   == 80)%Q ∧
  ∃ lines, Main.calculate_cost 2 4 Sample.prices [] Sample.store =
             Ok ((Qsum [2 * 4 * 5]%Q, lines), Sample.store).
Proof.
  destruct item_total_is_priced_sum as [Happ Hmain].
  split.
  - rewrite (Happ "signboard" "item" Sample.signboard
               [Material "Aluminium Sheet" 2 "sqm"; Material "Retro Tape" 3 "m"]).
    + vm_compute. reflexivity.
    + left. repeat split; reflexivity.
  - destruct (Hmain 2%nat [2%nat] 4%Q Sample.prices [] Sample.store) as [lines Hl].
    + right; right; left. repeat split; reflexivity.
    + reflexivity.
    + exists lines. exact Hl.
Defined.

(** C1 (as stated) fails in [main.py] for an entry whose list is the
    per-square-meter one: that program never reads the list, so the
    total is 0 whatever the prices, here against a priced sum of 10. *)
Lemma main_skips_sqm_list :
  populated (dicts Sample.store 1) [1%nat] ∧
  Main.calculate_cost 1 1 Sample.prices [] Sample.store = Ok ((0%Q, []), Sample.store) ∧
  (Qsum (map (λ m, quantity m * 1 * unit_price Sample.prices m)
             (priced Sample.prices (mats Sample.store <$> [1%nat]))) == 10)%Q.
Proof.
  split; [|split].
  - right; right; right. repeat split; reflexivity.
  - reflexivity.
  - vm_compute. reflexivity.
Qed.

(** ** A material without a price *)

Lemma priced_skip (prices : price_table) (ms1 ms2 : list material) (m : material) :
  prices !! name m = None →
  priced prices (ms1 ++ m :: ms2) = priced prices (ms1 ++ ms2).
Proof.
  intros Hm. unfold priced. rewrite !list.filter_app, filter_cons.
  rewrite decide_False; [reflexivity|].
  rewrite Hm. intros [? ?]; discriminate.
Qed.

Lemma cost_loop_price_gap (qn : material → Q) (prices : price_table)
    (ms1 ms2 : list material) (m : material) (report : list line) :
  prices !! name m = None →
  cost_loop qn prices (ms1 ++ m :: ms2) report =
    (Qsum (map (λ m, qn m * unit_price prices m)%Q (priced prices (ms1 ++ ms2))),
     report ++ map (cost_line qn prices) ms1 ++
       LPriceNotFound (name m) (qn m) :: map (cost_line qn prices) ms2).
Proof.
  intros Hm. rewrite cost_loop_spec, (priced_skip _ _ _ _ Hm), map_app. simpl.
  unfold cost_line at 2. by rewrite Hm.
Qed.

(** C8 (as amended): for a material of the list a program aggregates -
    in [app.py] the first list present, in [main.py] the per-item,
    per-meter and per-cubic-meter lists - whose name is not in the price
    table, the cost loop ends normally, the report has the material's
    line at its place, marked PRICE NOT FOUND, and [item_total_cost] is
    the sum over the priced materials among the others. *)
Theorem price_gap_is_reported :
  (∀ (intervention_key unit_type : string) (s : specs material) (quantity_found : Q)
     (prices : price_table) (report : list line)
     (ms1 ms2 : list material) (m : material),
     App.materials_list s = ms1 ++ m :: ms2 →
     prices !! name m = None →
     let qn := App.qty_needed intervention_key unit_type quantity_found in
     App.calculate_cost intervention_key unit_type s quantity_found prices report =
       (Qsum (map (λ m, qn m * unit_price prices m)%Q (priced prices (ms1 ++ ms2))),
        report ++ map (cost_line qn prices) ms1 ++
          LPriceNotFound (name m) (qn m) :: map (cost_line qn prices) ms2)) ∧
  (∀ (specs_ref : loc) (quantity_found : Q) (prices : price_table) (report : list line)
     (h : heap) (ms1 ms2 : list material) (m : material),
     mats h <$> Main.materials_list (dicts h specs_ref) = ms1 ++ m :: ms2 →
     prices !! name m = None →
     let qn := Main.qty_needed quantity_found in
     Main.calculate_cost specs_ref quantity_found prices report h =
       Ok ((Qsum (map (λ m, qn m * unit_price prices m)%Q (priced prices (ms1 ++ ms2))),
            report ++ map (cost_line qn prices) ms1 ++
              LPriceNotFound (name m) (qn m) :: map (cost_line qn prices) ms2), h)).
Proof.
  split.
  - intros key unit_type s q prices report ms1 ms2 m Hlist Hm qn.
    unfold App.calculate_cost. rewrite Hlist.
    by apply cost_loop_price_gap.
  - intros specs_ref q prices report h ms1 ms2 m Hlist Hm qn.
    unfold Main.calculate_cost, dict_read, get_heap, mbind, M_bind, mret, M_ret.
    rewrite Hlist. by rewrite (cost_loop_price_gap _ _ _ _ _ _ Hm).
Qed.

(** The signboard, whose tape has no price, and the pothole of the sample
    store against an empty price table. *)
Lemma price_gap_is_reported_witness :
  App.calculate_cost "signboard" "item" Sample.signboard 4 Sample.prices [] =
    ((0 + 2 * 4 * 10)%Q,
     [LPriced "Aluminium Sheet" (2 * 4) 10 (2 * 4 * 10); LPriceNotFound "Retro Tape" (3 * 4)]%Q) ∧
  Main.calculate_cost 2 4 ∅ [] Sample.store =
    Ok ((0%Q, [LPriceNotFound "Bitumen" (2 * 4)%Q]), Sample.store).
Proof.
  destruct price_gap_is_reported as [Happ Hmain].
  split.
  - rewrite (Happ "signboard" "item" Sample.signboard 4%Q Sample.prices []
               [Material "Aluminium Sheet" 2 "sqm"] [] (Material "Retro Tape" 3 "m"));
      reflexivity.
  - rewrite (Hmain 2%nat 4%Q ∅ [] Sample.store [] [] (Material "Bitumen" 2 "kg"));
      reflexivity.
Defined.

(** C8 (as stated) fails in [main.py] for a material of a
    per-square-meter list: the list is never read, so the material
    without a price has no line in the report. *)
Lemma main_sqm_material_not_reported :
  populated (dicts Sample.store 1) [1%nat] ∧
  (∅ : price_table) !! name (mats Sample.store 1) = None ∧
  Main.calculate_cost 1 4 ∅ [] Sample.store = Ok ((0%Q, []), Sample.store).
Proof.
  split; [|split].
  - right; right; right. repeat split; reflexivity.
  - reflexivity.
  - reflexivity.
Qed.

(** ** The quantity of a pothole *)

Lemma pothole_volume_found (text : string) (area_caps depth_caps : list string)
    (area_sqm depth_mm : Q) :
  Re.search pat_area text = Some area_caps →
  Re.search pat_depth text = Some depth_caps →
  found_number pat_area text area_sqm →
  found_number pat_depth text depth_mm →
  pothole_volume area_caps depth_caps = Ok (area_sqm * (depth_mm / 1000))%Q.
Proof.
  intros Ha Hd (ca & ga & Ha' & Hga & Hfa) (cd & gd & Hd' & Hgd & Hfd).
  rewrite Ha in Ha'. rewrite Hd in Hd'.
  injection Ha' as <-. injection Hd' as <-.
  unfold pothole_volume. rewrite Hga. simpl. rewrite Hfa. simpl.
  rewrite Hgd. simpl. rewrite Hfd. reflexivity.
Qed.

(** C7: under a per-cubic-meter entry with key "pothole" (in any case),
    when the text has both an area and a depth the quantity is
    [area_sqm * (depth_mm / 1000)] cubic meters, and when either pattern
    is absent the quantity is 0; in both programs. *)
Theorem pothole_quantity :
  (∀ (intervention_key text : string) (s : specs material),
     Str.lower intervention_key = "pothole" →
     per_cubic_meter_spec s →
     let t := Str.lower text in
     (∀ area_sqm depth_mm,
        found_number pat_area t area_sqm → found_number pat_depth t depth_mm →
        App.quantity_logic intervention_key s t =
          Ok ((area_sqm * (depth_mm / 1000))%Q, "m^3")) ∧
     (Re.search pat_area t = None ∨ Re.search pat_depth t = None →
        App.quantity_logic intervention_key s t = Ok (0%Q, "m^3"))) ∧
  (∀ (intervention_key text : string) (s : specs loc),
     Str.lower intervention_key = "pothole" →
     per_cubic_meter_spec s →
     let t := Str.lower text in
     (∀ area_sqm depth_mm,
        found_number pat_area t area_sqm → found_number pat_depth t depth_mm →
        Main.quantity_logic intervention_key s t =
          Ok ((area_sqm * (depth_mm / 1000))%Q, "m^3")) ∧
     (Re.search pat_area t = None ∨ Re.search pat_depth t = None →
        Main.quantity_logic intervention_key s t = Ok (0%Q, "m^3")) ∧
     (∀ (specs_ref : loc) (q : Q) (u : string) (h : heap),
        Main.road_studs_logic intervention_key specs_ref t q u h =
          Ok ((q, u, specs_ref), h))).
Proof.
  split.
  - intros key text s Hkey (Hi & Hm & [l Hc]) t. split.
    + intros a d Ha Hd.
      unfold App.quantity_logic. rewrite Hi, Hm, Hc, Hkey. simpl.
      destruct Ha as (ca & ga & Ha & Hga), Hd as (cd & gd & Hd & Hgd).
      rewrite Ha, Hd.
      erewrite pothole_volume_found; [reflexivity | eassumption..| |];
        eexists _, _; eauto.
    + intros Hnone.
      unfold App.quantity_logic. rewrite Hi, Hm, Hc, Hkey. simpl.
      destruct Hnone as [-> | ->]; [reflexivity|].
      destruct (Re.search pat_area t); reflexivity.
  - intros key text s Hkey (Hi & Hm & [l Hc]) t. split; [|split].
    + intros a d Ha Hd.
      unfold Main.quantity_logic. rewrite Hi, Hm, Hc, Hkey. simpl.
      destruct Ha as (ca & ga & Ha & Hga), Hd as (cd & gd & Hd & Hgd).
      rewrite Ha, Hd.
      erewrite pothole_volume_found; [reflexivity | eassumption..| |];
        eexists _, _; eauto.
    + intros Hnone.
      unfold Main.quantity_logic. rewrite Hi, Hm, Hc, Hkey. simpl.
      destruct Hnone as [-> | ->]; [reflexivity|].
      destruct (Re.search pat_area t); reflexivity.
    + intros specs_ref q u h. unfold Main.road_studs_logic. rewrite Hkey. reflexivity.
Qed.

(** The pothole of the specification's test list: 12.5 sqm at 50 mm is
    0.625 cubic meters; and a report with no dimensions. *)
Lemma pothole_quantity_witness :
  (∃ q, App.quantity_logic "Pothole" SampleText.pothole_spec
          (Str.lower SampleText.pothole_report) = Ok (q, "m^3") ∧ (q == 0.625)%Q) ∧
  App.quantity_logic "Pothole" SampleText.pothole_spec (Str.lower "One pothole.")
    = Ok (0%Q, "m^3") ∧
  (∃ q, Main.quantity_logic "Pothole" (dicts Sample.store 2)
          (Str.lower SampleText.pothole_report) = Ok (q, "m^3") ∧ (q == 0.625)%Q) ∧
  Main.quantity_logic "Pothole" (dicts Sample.store 2) (Str.lower "One pothole.")
    = Ok (0%Q, "m^3").
Proof.
  destruct pothole_quantity as [Happ Hmain].
  assert (found_number pat_area (Str.lower SampleText.pothole_report) 12.5) as Ha.
  { exists ["12.5"], "12.5". repeat split; reflexivity. }
  assert (found_number pat_depth (Str.lower SampleText.pothole_report) 50) as Hd.
  { exists ["50"], "50". repeat split; reflexivity. }
  split; [|split; [|split]].
  - destruct (Happ "Pothole" SampleText.pothole_report SampleText.pothole_spec) as [H _].
    + reflexivity.
    + repeat split. by eexists.
    + eexists. split; [apply (H _ _ Ha Hd) | reflexivity].
  - destruct (Happ "Pothole" "One pothole." SampleText.pothole_spec) as [_ H].
    + reflexivity.
    + repeat split. by eexists.
    + apply H. left. reflexivity.
  - destruct (Hmain "Pothole" SampleText.pothole_report (dicts Sample.store 2)) as [H _].
    + reflexivity.
    + repeat split. by eexists.
    + eexists. split; [apply (H _ _ Ha Hd) | reflexivity].
  - destruct (Hmain "Pothole" "One pothole." (dicts Sample.store 2)) as (_ & H & _).
    + reflexivity.
    + repeat split. by eexists.
    + apply H. left. reflexivity.
Defined.

(** ** Road studs *)

(** Every match of the chainage range has four groups of digits. *)
Lemma chainage_range_found (text : string) (caps : list string) :
  Re.search pat_chainage_range text = Some caps →
  ∃ a b c d, found_range text a b c d ∧ studs_of_range caps = Ok (studs_for a b c d).
Proof.
  intros Hs.
  pose proof (search_caps pat_chainage_range text caps eq_refl Hs) as Hcaps.
  destruct (studs_of_range_spec caps Hcaps)
    as (g1 & g2 & g3 & g4 & a & b & c & d & -> & Ha & Hb & Hc & Hd & Hq).
  exists a, b, c, d. split; [|exact Hq].
  exists g1, g2, g3, g4. auto.
Qed.

Lemma found_range_studs (text : string) (caps : list string) (a b c d : Z) :
  Re.search pat_chainage_range text = Some caps →
  found_range text a b c d →
  studs_of_range caps = Ok (studs_for a b c d).
Proof.
  intros Hs (g1 & g2 & g3 & g4 & Hs' & Ha & Hb & Hc & Hd).
  rewrite Hs in Hs'. injection Hs' as ->.
  unfold studs_of_range. rewrite Ha. simpl. rewrite Hb. simpl.
  rewrite Hc. simpl. rewrite Hd. reflexivity.
Qed.

(** The adjustment of an entry that has a per-meter list with a first
    material [m]: a copy of the entry gets the list under
    "materials_per_item", and the quantity 1 is written to [m] itself. *)
Lemma adjust_spec_meter (specs_ref : loc) (h : heap) (m : loc) (rest : list loc) :
  materials_per_meter (dicts h specs_ref) = Some (m :: rest) →
  Main.adjust_spec specs_ref h =
    Ok (next h,
        Heap (<[next h := Specs (source_clause (dicts h specs_ref)) (Some (m :: rest)) None
                            (materials_per_cubic_meter (dicts h specs_ref))
                            (materials_per_sqm_20mm (dicts h specs_ref))]>
                (<[next h := dicts h specs_ref]> (dicts h)))
             (<[m := Material (name (mats h m)) 1 (unit (mats h m))]> (mats h))
             (S (next h))).
Proof.
  intros Hm.
  unfold Main.adjust_spec, dict_read, dict_copy, dict_move_meter_to_item,
    set_first_item_quantity, mbind, M_bind, mret, M_ret.
  rewrite Hm. simpl. rewrite !fn_lookup_insert, Hm. simpl.
  rewrite !fn_lookup_insert. simpl. reflexivity.
Qed.

Lemma adjust_spec_no_meter (specs_ref : loc) (h : heap) :
  materials_per_meter (dicts h specs_ref) = None →
  Main.adjust_spec specs_ref h = Ok (specs_ref, h).
Proof.
  intros Hm.
  unfold Main.adjust_spec, dict_read, mbind, M_bind, mret, M_ret.
  rewrite Hm. reflexivity.
Qed.

Lemma adjust_spec_returns (specs_ref : loc) (h : heap) :
  materials_per_meter (dicts h specs_ref) ≠ Some [] →
  ∃ r h', Main.adjust_spec specs_ref h = Ok (r, h').
Proof.
  intros Hne.
  destruct (materials_per_meter (dicts h specs_ref)) as [[|m rest]|] eqn:Hm.
  - done.
  - rewrite (adjust_spec_meter _ _ _ _ Hm). eauto.
  - rewrite (adjust_spec_no_meter _ _ Hm). eauto.
Qed.




(** ** Runs that show a defect *)

(** C4: the code raises where the specification promises the default of
    the branch.  The area
    pattern captures "1.2.3", [float()] rejects it, and nothing catches
    the [ValueError]: the quantity logic of both programs raises, and so
    does the whole run. *)
Theorem malformed_number_raises :
  Re.search pat_area (Str.lower SampleText.malformed_report) = Some ["1.2.3"] ∧
  py_float "1.2.3" = Raise ValueError ∧
  App.quantity_logic "Pothole" SampleText.pothole_spec
    (Str.lower SampleText.malformed_report) = Raise ValueError ∧
  Main.quantity_logic "Pothole" (dicts Sample.store 2)
    (Str.lower SampleText.malformed_report) = Raise ValueError ∧
  App.run SampleText.app_database SampleText.malformed_report Sample.prices
    = Raise ValueError ∧
  Main.run SampleText.main_database SampleText.malformed_report Sample.prices
    Sample.store = Raise ValueError.
Proof. repeat split; reflexivity. Qed.

(** C6: [app.py] does not adjust the entry for road studs.  With the
    per-meter quantity 1/2 in the table, 24 studs are costed as
    [24 * 1/2 = 12] units in [app.py], where [main.py], which sets the
    quantity to 1 before the cost loop, costs 24 units. *)
Theorem app_road_studs_not_adjusted :
  (∃ st, App.run SampleText.app_database SampleText.studs_report Sample.prices = Ok st ∧
         LQuantity 24 "item" ∈ App.report_lines st ∧
         LPriced "Road Stud" (24 * (1 # 2)) 100 (24 * (1 # 2) * 100) ∈ App.report_lines st ∧
         (App.total_project_cost st == 1200)%Q) ∧
  (∃ total report h',
     Main.run SampleText.main_database SampleText.studs_report Sample.prices
       Sample.store = Ok ((total, report), h') ∧
     LQuantity 24 "item" ∈ report ∧
     LPriced "Road Stud" (1 * 24) 100 (1 * 24 * 100) ∈ report ∧
     (total == 2400)%Q).
Proof.
  split.
  - eexists. split; [vm_compute; reflexivity|]. simpl.
    repeat split; [set_solver | set_solver].
  - eexists _, _, _. split; [vm_compute; reflexivity|].
    repeat split; [set_solver | set_solver].
Qed.

(** C9: a run of [main.py] changes the loaded table.  The copy of the
    entry for road studs shares its list and the material objects in it
    with the table, so writing the quantity 1 through the copy changes
    the material of the table: 1/2 before the run, 1 after it. *)
Theorem main_run_changes_table :
  ∃ result h',
    Main.run SampleText.main_database SampleText.studs_report Sample.prices
      Sample.store = Ok (result, h') ∧
    dicts h' 0 = dicts Sample.store 0 ∧
    materials_per_meter (dicts h' 0) = Some [0%nat] ∧
    quantity (mats Sample.store 0) = (1 # 2)%Q ∧
    quantity (mats h' 0) = 1%Q.
Proof.
  eexists _, _. split; [vm_compute; reflexivity|].
  repeat split.
Qed.

(** ** The quantity is not negative *)

Lemma studs_of_range_nonneg (caps : list string) (q : Q) :
  studs_of_range caps = Ok q → (0 <= q)%Q.
Proof.
  unfold studs_of_range.
  destruct caps as [|g1 [|g2 [|g3 [|g4 [|? ?]]]]]; try discriminate.
  destruct (py_int g1) as [a|]; [|discriminate].
  destruct (py_int g2) as [b|]; [|discriminate].
  destruct (py_int g3) as [c|]; [|discriminate].
  destruct (py_int g4) as [d|]; [|discriminate].
  intros [= <-]. apply (studs_for_nonneg a b c d).
Qed.

Lemma group_float_nonneg (caps : list string) (u u' : string) (q : Q) :
  (g ← group1 caps; x ← py_float g; Ok (x, u)) = Ok (q, u') → (0 <= q)%Q.
Proof.
  destruct caps as [|g ?]; [discriminate|]. simpl.
  destruct (py_float g) as [x|] eqn:Hx; [|discriminate].
  intros [= <- _]. by apply py_float_nonneg in Hx.
Qed.

Lemma pothole_volume_nonneg (area_caps depth_caps : list string) (q : Q) :
  pothole_volume area_caps depth_caps = Ok q → (0 <= q)%Q.
Proof.
  unfold pothole_volume.
  destruct area_caps as [|a ?]; [discriminate|]. simpl.
  destruct (py_float a) as [x|] eqn:Hx; [|discriminate]. simpl.
  destruct depth_caps as [|d ?]; [discriminate|]. simpl.
  destruct (py_float d) as [y|] eqn:Hy; [|discriminate]. simpl.
  intros [= <-].
  apply py_float_nonneg in Hx, Hy.
  apply Qmult_le_0_compat; [exact Hx|].
  apply Qle_shift_div_l; [reflexivity | lra].
Qed.

Lemma count_quantity_nonneg (n : Z) :
  0 ≤ n → (0 <= inject_Z (if n =? 0 then 1 else n))%Q.
Proof.
  intros Hn. change 0%Q with (inject_Z 0). rewrite <- Zle_Qle.
  destruct (n =? 0); lia.
Qed.

Ltac quantity_cases :=
  repeat match goal with
    | |- context [if ?b then _ else _] => destruct b
    | |- context [match Re.search ?p ?t with _ => _ end] => destruct (Re.search p t)
    end.

Lemma app_quantity_nonneg (key text : string) (s : specs material) (q : Q) (u : string) :
  App.quantity_logic key s text = Ok (q, u) → (0 <= q)%Q.
Proof.
  unfold App.quantity_logic.
  pose proof (count_quantity_nonneg _ (count_nonneg (Str.lower key) text)) as Hcount.
  quantity_cases; try (intros [= <- <-]; first [exact Hcount | lra]).
  - apply group_float_nonneg.
  - destruct (studs_of_range l) as [x|] eqn:Hx; [|discriminate].
    intros [= <- <-]. by apply studs_of_range_nonneg in Hx.
  - destruct (pothole_volume l l0) as [x|] eqn:Hx; [|discriminate].
    intros [= <- <-]. by apply pothole_volume_nonneg in Hx.
  - apply group_float_nonneg.
Qed.

(** ** The grand total *)

Lemma Qsum_snoc (xs : list Q) (x : Q) : Qsum (xs ++ [x]) = (Qsum xs + x)%Q.
Proof. unfold Qsum. by rewrite fold_left_app. Qed.

Lemma fold_Qplus_nonneg (xs : list Q) (a : Q) :
  Forall (λ x, 0 <= x)%Q xs → (0 <= a)%Q → (0 <= fold_left Qplus xs a)%Q.
Proof.
  intros H. revert a. induction H as [|x xs Hx _ IH]; intros a Ha; simpl; [exact Ha|].
  apply IH. lra.
Qed.

Lemma Qsum_nonneg (xs : list Q) : Forall (λ x, 0 <= x)%Q xs → (0 <= Qsum xs)%Q.
Proof. intros H. apply fold_Qplus_nonneg; [exact H | lra]. Qed.

Lemma item_totals_cost_lines (qn : material → Q) (prices : price_table)
    (ms : list material) :
  item_totals (map (cost_line qn prices) ms) = [] ∧
  total_keys (map (cost_line qn prices) ms) = [].
Proof.
  unfold item_totals, total_keys.
  split; (induction ms as [|m ms IH]; simpl; [done|]);
    unfold cost_line at 1; destruct (prices !! name m); simpl; exact IH.
Qed.

Lemma unit_price_nonneg (prices : price_table) (m : material) :
  prices_nonneg prices → (0 <= unit_price prices m)%Q.
Proof.
  intros Hp. unfold unit_price.
  destruct (prices !! name m) as [p|] eqn:E; simpl; [by apply (Hp _ _ E) | lra].
Qed.

(** With no negative price and no negative quantity, the total of an
    intervention is not negative. *)
Lemma app_item_total_nonneg (key unit_type : string) (s : specs material) (q : Q)
    (prices : price_table) (report : list line) :
  prices_nonneg prices →
  (∀ m, m ∈ App.materials_list s → (0 <= quantity m)%Q) →
  (0 <= q)%Q →
  (0 <= (App.calculate_cost key unit_type s q prices report).1)%Q.
Proof.
  intros Hp Hm Hq. unfold App.calculate_cost. rewrite cost_loop_spec. simpl.
  apply Qsum_nonneg. apply Forall_forall. intros x Hx.
  apply list_elem_of_In, list_elem_of_fmap in Hx as (m & -> & Hin).
  apply list_elem_of_filter in Hin as [_ Hin].
  apply Qmult_le_0_compat; [|by apply unit_price_nonneg].
  rewrite app_qty_needed. apply Qmult_le_0_compat; auto.
Qed.

Lemma for_in_ind {A S} (Q : A → Prop) (P : list A → S → Prop) (body : S → A → py S) :
  (∀ pre x s s', Q x → P pre s → body s x = Ok s' → P (pre ++ [x]) s') →
  ∀ xs pre s s', Forall Q xs → P pre s → for_in xs body s = Ok s' → P (pre ++ xs) s'.
Proof.
  intros Hstep xs. induction xs as [|x xs IH]; intros pre s s' HQ HP Hrun; simpl in Hrun.
  - injection Hrun as <-. by rewrite app_nil_r.
  - inversion HQ as [|? ? Hx Hxs]; subst.
    destruct (body s x) as [s1|] eqn:Hb; [|discriminate]. simpl in Hrun.
    change (x :: xs) with ([x] ++ xs). rewrite app_assoc.
    apply (IH _ s1 s' Hxs); [|exact Hrun].
    by apply (Hstep pre x s s1).
Qed.

Lemma matched_snoc {A} (text : string) (pre : list (string * A)) (key : string) (a : A) :
  matched text (pre ++ [(key, a)]) =
    matched text pre ++
    (if Str.contains (Str.lower key) (Str.lower text) then [key] else []).
Proof.
  unfold matched. rewrite fmap_app, list.filter_app. simpl.
  rewrite filter_cons, filter_nil. simpl.
  destruct (Str.contains (Str.lower key) (Str.lower text)); reflexivity.
Qed.

(** One turn of the loop of [app.py]. *)
Lemma app_iteration_spec (text : string) (prices : price_table) (st st' : App.state)
    (key : string) (s : specs material) :
  App.iteration (Str.lower text) prices st (key, s) = Ok st' →
  if Str.contains (Str.lower key) (Str.lower text) then
    ∃ q u t,
      App.quantity_logic key s (Str.lower text) = Ok (q, u) ∧
      (∀ report, (App.calculate_cost key u s q prices report).1 = t) ∧
      App.total_project_cost st' = (App.total_project_cost st + t)%Q ∧
      item_totals (App.report_lines st') = item_totals (App.report_lines st) ++ [t] ∧
      total_keys (App.report_lines st') = total_keys (App.report_lines st) ++ [key] ∧
      App.results_list st' =
        if Qlt_le_dec 0 t
        then App.results_list st ++ [App.ResultItem key q u (source_clause s) t]
        else App.results_list st
  else st' = st.
Proof.
  unfold App.iteration.
  destruct (Str.contains (Str.lower key) (Str.lower text)); [|by intros [= <-]].
  destruct (App.quantity_logic key s (Str.lower text)) as [[q u]|] eqn:Hq;
    [|discriminate].
  simpl. unfold App.calculate_cost. rewrite cost_loop_spec.
  set (t := Qsum _).
  pose proof (item_totals_cost_lines (App.qty_needed key u q) prices
                (App.materials_list s)) as [Hit Hkeys].
  intros Hst. exists q, u, t.
  split; [reflexivity|].
  split; [intros report; by rewrite cost_loop_spec|].
  unfold item_totals, total_keys in *.
  destruct (Qlt_le_dec 0 t); injection Hst as <-; simpl;
    rewrite !omap_app, Hit, Hkeys; simpl; rewrite !app_nil_r; auto.
Qed.

Lemma for_in_M_ind {A S} (P : list A → S → Prop) (body : S → A → M S) :
  (∀ pre x s s' h h', P pre s → body s x h = Ok (s', h') → P (pre ++ [x]) s') →
  ∀ xs pre s s' h h', P pre s → for_in_M xs body s h = Ok (s', h') → P (pre ++ xs) s'.
Proof.
  intros Hstep xs. induction xs as [|x xs IH]; intros pre s s' h h' HP Hrun;
    simpl in Hrun.
  - injection Hrun as <- <-. by rewrite app_nil_r.
  - unfold mbind, M_bind in Hrun.
    destruct (body s x h) as [[s1 h1]|] eqn:Hb; [|discriminate].
    change (x :: xs) with ([x] ++ xs). rewrite app_assoc.
    apply (IH _ s1 s' h1 h'); [|exact Hrun].
    by apply (Hstep pre x s s1 h h1).
Qed.

(** One turn of the loop of [main.py]. *)
Lemma main_iteration_spec (text : string) (prices : price_table)
    (st st' : Q * list line) (key : string) (specs_ref : loc) (h h' : heap) :
  Main.iteration (Str.lower text) prices st (key, specs_ref) h = Ok (st', h') →
  if Str.contains (Str.lower key) (Str.lower text) then
    ∃ t, st'.1 = (st.1 + t)%Q ∧
         item_totals st'.2 = item_totals st.2 ++ [t] ∧
         total_keys st'.2 = total_keys st.2 ++ [key]
  else st' = st.
Proof.
  unfold Main.iteration.
  destruct (Str.contains (Str.lower key) (Str.lower text)); [|by intros [= <- <-]].
  unfold mbind, M_bind, dict_read, lift, mret, M_ret.
  destruct (Main.quantity_logic key (dicts h specs_ref) (Str.lower text))
    as [[q0 u0]|]; [|discriminate].
  destruct (Main.road_studs_logic key specs_ref (Str.lower text) q0 u0 h)
    as [[[[q u] r] h1]|]; [|discriminate].
  unfold Main.calculate_cost, mbind, M_bind, dict_read, get_heap, mret, M_ret.
  rewrite cost_loop_spec.
  set (t := Qsum _).
  pose proof (item_totals_cost_lines (Main.qty_needed q) prices
                (mats h1 <$> Main.materials_list (dicts h1 r))) as [Hit Hkeys].
  intros [= <- <-]. exists t. simpl.
  unfold item_totals, total_keys in *.
  rewrite !omap_app, Hit, Hkeys. simpl. rewrite !app_nil_r. auto.
Qed.


Lemma sample_prices_nonneg : prices_nonneg Sample.prices.
Proof.
  intros n p H. unfold Sample.prices in H.
  repeat (apply lookup_insert_Some in H as [[_ <-]|[_ H]]; [discriminate|]).
  apply lookup_singleton_Some in H as [_ <-]. discriminate.
Qed.

Lemma sample_quantities_nonneg : quantities_nonneg SampleText.app_database.
Proof.
  intros key s m Hin Hm. unfold SampleText.app_database in Hin.
  apply list_elem_of_In in Hin. simpl in Hin.
  destruct Hin as [[= <- <-]|[[= <- <-]|[]]]; simpl in Hm;
    apply list_elem_of_In in Hm; simpl in Hm;
    destruct Hm as [<-|[]]; simpl; discriminate.
Qed.


(** ** What the quantity logic can raise *)

Lemma py_float_raises (g : string) (e : exn) : py_float g = Raise e → e = ValueError.
Proof.
  unfold py_float.
  destruct (Str.split "." g) as [|i [|f [|? ?]]]; try (by intros [= <-]).
  - destruct i; [by intros [= <-]|].
    destruct (Str.digits_val 0 _); [discriminate | by intros [= <-]].
  - destruct (Str.digits_val 0 i); [|by intros [= <-]].
    destruct (Str.digits_val 0 f); [|by intros [= <-]].
    destruct (_ =? _)%nat; [by intros [= <-] | discriminate].
Qed.

(** A match of a pattern with one group has that group. *)
Lemma search_one_group (r : Re.t) (p : ascii → bool) (text : string)
    (caps : list string) :
  simple_groups r = true → group_classes r = [p] →
  Re.search r text = Some caps → ∃ g, caps = [g] ∧ run_of p g.
Proof.
  intros Hs Hg Hsearch.
  pose proof (search_caps r text caps Hs Hsearch) as H. rewrite Hg in H.
  inversion H as [|? g ? ? Hrun Hnil]; subst. inversion Hnil; subst. eauto.
Qed.

Lemma group_float_raises (r : Re.t) (p : ascii → bool) (text u : string)
    (caps : list string) (e : exn) :
  simple_groups r = true → group_classes r = [p] →
  Re.search r text = Some caps →
  (g ← group1 caps; x ← py_float g; Ok (x, u)) = Raise e → e = ValueError.
Proof.
  intros Hs Hg Hsearch.
  destruct (search_one_group r p text caps Hs Hg Hsearch) as (g & -> & _). simpl.
  destruct (py_float g) eqn:Hf; [discriminate|].
  intros [= <-]. by apply py_float_raises in Hf.
Qed.

Lemma pothole_volume_raises (text : string) (area_caps depth_caps : list string)
    (e : exn) :
  Re.search pat_area text = Some area_caps →
  Re.search pat_depth text = Some depth_caps →
  pothole_volume area_caps depth_caps = Raise e → e = ValueError.
Proof.
  intros Ha Hd.
  destruct (search_one_group pat_area Str.is_digit_or_dot _ _ eq_refl eq_refl Ha)
    as (a & -> & _).
  destruct (search_one_group pat_depth Str.is_digit_or_dot _ _ eq_refl eq_refl Hd)
    as (d & -> & _).
  unfold pothole_volume. simpl.
  destruct (py_float a) eqn:Hfa; simpl; [|intros [= <-]; by apply py_float_raises in Hfa].
  destruct (py_float d) eqn:Hfd; simpl; [discriminate|].
  intros [= <-]. by apply py_float_raises in Hfd.
Qed.

(** The quantity logic of [app.py] raises nothing but the [ValueError]
    of [float()]. *)
Lemma app_quantity_raises (key text : string) (s : specs material) (e : exn) :
  App.quantity_logic key s text = Raise e → e = ValueError.
Proof.
  unfold App.quantity_logic.
  repeat match goal with
    | |- context [if ?b then _ else _] => destruct b
    end; try discriminate.
  - destruct (Re.search pat_length_m text) as [caps|] eqn:Hs; [|discriminate].
    by apply (group_float_raises pat_length_m Str.is_digit text).
  - destruct (Re.search pat_chainage_range text) as [caps|] eqn:Hs; [|discriminate].
    destruct (chainage_range_found text caps Hs) as (a & b & c & d & _ & ->).
    discriminate.
  - destruct (Re.search pat_area text) as [ac|] eqn:Ha; [|discriminate].
    destruct (Re.search pat_depth text) as [dc|] eqn:Hd; [|discriminate].
    destruct (pothole_volume ac dc) eqn:Hv; [discriminate|].
    intros [= <-]. by apply (pothole_volume_raises text ac dc).
  - destruct (Re.search pat_area text) as [ac|] eqn:Ha; [|discriminate].
    by apply (group_float_raises pat_area Str.is_digit_or_dot text).
Qed.

(** So does the quantity logic of [main.py]. *)
Lemma main_quantity_raises {A} (key text : string) (s : specs A) (e : exn) :
  Main.quantity_logic key s text = Raise e → e = ValueError.
Proof.
  unfold Main.quantity_logic.
  repeat match goal with
    | |- context [if ?b then _ else _] => destruct b
    end; try discriminate.
  - destruct (Re.search pat_length_m text) as [caps|] eqn:Hs; [|discriminate].
    by apply (group_float_raises pat_length_m Str.is_digit text).
  - destruct (Re.search pat_area text) as [ac|] eqn:Ha; [|discriminate].
    destruct (Re.search pat_depth text) as [dc|] eqn:Hd; [|discriminate].
    destruct (pothole_volume ac dc) eqn:Hv; [discriminate|].
    intros [= <-]. by apply (pothole_volume_raises text ac dc).
Qed.

(** A run of digits is a number for [float()]: the length in meters of
    the longitudinal markings never raises. *)
Lemma length_m_never_raises (text : string) (caps : list string) :
  Re.search pat_length_m text = Some caps →
  ∃ v, (g ← group1 caps; py_float g) = Ok (inject_Z v) ∧ 0 ≤ v.
Proof.
  intros Hs.
  destruct (search_one_group pat_length_m Str.is_digit _ _ eq_refl eq_refl Hs)
    as (g & -> & Hg).
  simpl. by apply py_float_digits.
Qed.

(** ** The write through the copy *)

Lemma road_studs_logic_meter (key text : string) (specs_ref m : loc) (rest : list loc)
    (q0 : Q) (u0 : string) (h : heap) :
  Str.lower key = "road studs" →
  materials_per_meter (dicts h specs_ref) = Some (m :: rest) →
  ∃ q, Main.road_studs_logic key specs_ref text q0 u0 h =
         Ok ((q, "item", next h),
             Heap (<[next h := Specs (source_clause (dicts h specs_ref))
                                 (Some (m :: rest)) None
                                 (materials_per_cubic_meter (dicts h specs_ref))
                                 (materials_per_sqm_20mm (dicts h specs_ref))]>
                     (<[next h := dicts h specs_ref]> (dicts h)))
                  (<[m := Material (name (mats h m)) 1 (unit (mats h m))]> (mats h))
                  (S (next h))).
Proof.
  intros Hkey Hm. unfold Main.road_studs_logic. rewrite Hkey. simpl.
  destruct (Re.search pat_chainage_range text) as [caps|] eqn:Hs.
  - destruct (chainage_range_found _ caps Hs) as (a & b & c & d & _ & Hq).
    exists (studs_for a b c d).
    unfold mbind, M_bind, lift, mret, M_ret. rewrite Hq.
    by rewrite (adjust_spec_meter _ _ _ _ Hm).
  - exists 1%Q. unfold mbind, M_bind, mret, M_ret.
    by rewrite (adjust_spec_meter _ _ _ _ Hm).
Qed.

(** One turn of the loop of [main.py] on an entry for road studs with a
    per-meter list: the turn ends normally, the entry of the table is as
    it was, and the first material of its list now has the quantity 1. *)
Lemma main_iteration_writes_material (text : string) (prices : price_table)
    (st : Q * list line) (key : string) (specs_ref m : loc) (rest : list loc) (h : heap) :
  Str.lower key = "road studs" →
  Str.contains (Str.lower key) (Str.lower text) = true →
  materials_per_meter (dicts h specs_ref) = Some (m :: rest) →
  (specs_ref < next h)%nat →
  ∃ st' h',
    Main.iteration (Str.lower text) prices st (key, specs_ref) h = Ok (st', h') ∧
    dicts h' specs_ref = dicts h specs_ref ∧
    quantity (mats h' m) = 1%Q.
Proof.
  intros Hkey Hin Hm Hlt.
  assert (Main.quantity_logic key (dicts h specs_ref) (Str.lower text)
          = Ok (1%Q, "meter")) as Hq.
  { unfold Main.quantity_logic. by rewrite Hm, Hkey. }
  destruct (road_studs_logic_meter key (Str.lower text) specs_ref m rest 1 "meter" h
              Hkey Hm) as [q Hr].
  unfold Main.iteration. rewrite Hin.
  unfold mbind at 1, M_bind at 1, dict_read at 1.
  unfold mbind at 1, M_bind at 1, lift. rewrite Hq.
  unfold mbind at 1, M_bind at 1. rewrite Hr.
  unfold Main.calculate_cost, mbind, M_bind, dict_read, get_heap, mret, M_ret.
  simpl.
  match goal with
  | |- context [cost_loop ?qn ?pr ?ms ?rep] => destruct (cost_loop qn pr ms rep)
  end.
  eexists _, _. split; [reflexivity|]. simpl. split.
  - rewrite !fn_lookup_insert_ne by lia. reflexivity.
  - by rewrite fn_lookup_insert.
Qed.

(** * The rest of the code *)

(** ** Interpolation never leaves the reference line *)

Lemma clamp_bounds (x : Q) : (0 <= clamp x <= 1)%Q.
Proof.
  unfold clamp.
  destruct (Qlt_le_dec x 0); destruct (Qlt_le_dec 1 _); lra.
Qed.

Lemma clamp_proper (x y : Q) : (x == y)%Q → (clamp x == clamp y)%Q.
Proof.
  intros H. unfold clamp.
  destruct (Qlt_le_dec x 0), (Qlt_le_dec y 0);
    repeat match goal with |- context [Qlt_le_dec ?a ?b] => destruct (Qlt_le_dec a b) end;
    lra.
Qed.

Lemma clamp_complement (x : Q) : (clamp (1 - x) == 1 - clamp x)%Q.
Proof.
  unfold clamp.
  destruct (Qlt_le_dec (1 - x) 0), (Qlt_le_dec x 0);
    repeat match goal with |- context [Qlt_le_dec ?a ?b] => destruct (Qlt_le_dec a b) end;
    lra.
Qed.

Lemma between_lerp (s e c : Q) :
  (0 <= c <= 1)%Q →
  (s <= s + (e - s) * c <= e)%Q ∨ (e <= s + (e - s) * c <= s)%Q.
Proof.
  intros [H0 H1].
  destruct (Qlt_le_dec e s) as [Hlt|Hle]; [right | left]; nra.
Qed.




(** ** The chainage label for the map *)

Lemma lower_char_plus (c : ascii) :
  Ascii.eqb (Str.lower_char c) (Str.lower_char "+") = true → c = "+"%char.
Proof.
  destruct c as [[] [] [] [] [] [] [] []]; vm_compute; intros H;
    first [discriminate H | reflexivity].
Qed.

Lemma append_assoc (a b c : string) : (a +:+ b) +:+ c = a +:+ (b +:+ c).
Proof.
  induction a as [|x a IH]; [reflexivity|].
  change (String x ((a +:+ b) +:+ c) = String x (a +:+ (b +:+ c))).
  by rewrite IH.
Qed.

Lemma forallb_append (p : ascii → bool) (a b : string) :
  Str.forallb p (a +:+ b) = Str.forallb p a && Str.forallb p b.
Proof.
  induction a as [|x a IH]; simpl; [reflexivity|].
  rewrite IH. by rewrite andb_assoc.
Qed.

(** A match of [(\d+\+\d+)] captures digits, a plus sign and digits. *)
Lemma chainage_match_form (s : string) (caps : list string) :
  Re.match_here pat_chainage s = Some caps →
  ∃ a b, caps = [a +:+ "+" +:+ b] ∧ run_of Str.is_digit a ∧ run_of Str.is_digit b.
Proof.
  unfold Re.match_here, pat_chainage. simpl.
  destruct s as [|c s]; [discriminate|].
  destruct (Str.is_digit c) eqn:Hc; [|discriminate].
  intros H. apply star_inv in H as (pre & s1 & -> & Hpre & H).
  destruct s1 as [|c1 s1]; [discriminate|].
  destruct (Ascii.eqb _ _) eqn:Hplus; [|discriminate].
  apply lower_char_plus in Hplus as ->.
  destruct s1 as [|c2 s2]; [discriminate|].
  destruct (Str.is_digit c2) eqn:Hc2; [|discriminate].
  apply star_inv in H as (pre2 & s3 & -> & Hpre2 & H).
  injection H as <-.
  exists (String c pre), (String c2 pre2).
  split; [|split; split; try discriminate; simpl; by rewrite ?Hc, ?Hc2, ?Hpre, ?Hpre2].
  f_equal. unfold Re.consumed.
  replace (String c (pre +:+ String "+" (String c2 (pre2 +:+ s3))))
    with ((String c pre +:+ "+" +:+ String c2 pre2) +:+ s3).
  - apply take_length_app.
  - rewrite !append_assoc. reflexivity.
Qed.

Lemma search_unfold (r : Re.t) (s : string) :
  Re.search r s =
    match Re.match_here r s with
    | Some caps => Some caps
    | None => match s with
              | String _ s' => Re.search r s'
              | EmptyString => None
              end
    end.
Proof. destruct s; reflexivity. Qed.

Lemma chainage_search_form (s : string) (caps : list string) :
  Re.search pat_chainage s = Some caps →
  ∃ a b, caps = [a +:+ "+" +:+ b] ∧ run_of Str.is_digit a ∧ run_of Str.is_digit b.
Proof.
  induction s as [|c s IH]; rewrite search_unfold;
    destruct (Re.match_here pat_chainage _) eqn:Hm;
    try discriminate; try exact IH;
    intros [= <-]; by apply chainage_match_form in Hm.
Qed.

Lemma split_two (sep : ascii) (a b : string) :
  Str.forallb (λ c, negb (Ascii.eqb c sep)) a = true →
  Str.forallb (λ c, negb (Ascii.eqb c sep)) b = true →
  Str.split sep (a +:+ String sep b) = [a; b].
Proof.
  intros Ha Hb. induction a as [|x a IH]; simpl.
  - rewrite Ascii.eqb_refl. by rewrite (split_without_sep _ _ Hb).
  - simpl in Ha. apply andb_true_iff in Ha as [Hx Ha].
    apply negb_true_iff in Hx. rewrite Hx, (IH Ha). reflexivity.
Qed.

(** A label of digits, a plus sign and digits is a chainage for
    [parse_chainage]. *)
Lemma parse_chainage_label (a b : string) :
  run_of Str.is_digit a → run_of Str.is_digit b →
  ∃ km m, Str.digits_val 0 a = Some km ∧ Str.digits_val 0 b = Some m ∧
          0 ≤ km ∧ 0 ≤ m ∧
          App.parse_chainage (a +:+ "+" +:+ b) = Some (km * 1000 + m).
Proof.
  intros Ha Hb.
  destruct (py_int_digits a Ha) as (km & Hia & Hva & Hkm).
  destruct (py_int_digits b Hb) as (m & Hib & Hvb & Hm).
  exists km, m. repeat split; try assumption.
  rewrite parse_chainage_parts.
  destruct Ha as [_ Ha], Hb as [_ Hb].
  destruct (digits_plain a Ha) as (_ & Hpa & _).
  destruct (digits_plain b Hb) as (_ & Hpb & _).
  change (a +:+ "+" +:+ b) with (a +:+ String "+" b).
  rewrite (split_two "+" a b Hpa Hpb), Hia, Hib. reflexivity.
Qed.

Lemma first_chainage_form (text : string) (starts : list nat) (r : py (option string)) :
  Map.first_chainage text starts = r →
  r = Ok None ∨
  ∃ a b, r = Ok (Some (a +:+ "+" +:+ b)) ∧ run_of Str.is_digit a ∧ run_of Str.is_digit b.
Proof.
  intros <-. induction starts as [|start rest IH]; simpl; [by left|].
  destruct (Re.search pat_chainage _) as [caps|] eqn:Hs; [|exact IH].
  apply chainage_search_form in Hs as (a & b & -> & Ha & Hb).
  right. exists a, b. auto.
Qed.

Lemma find_chainage_form (matches : py (list nat)) (text label : string) :
  Map.find_chainage matches text = Some label →
  ∃ a b, label = a +:+ "+" +:+ b ∧ run_of Str.is_digit a ∧ run_of Str.is_digit b.
Proof.
  unfold Map.find_chainage. destruct matches as [starts|e]; simpl; [|discriminate].
  destruct (first_chainage_form text starts _ eq_refl) as [-> | (a & b & -> & Ha & Hb)];
    simpl; [discriminate|].
  intros [= <-]. eauto.
Qed.

(** Whatever the matches of the key are, a label that is found is made
    of digits, a plus sign and digits, and [parse_chainage] gives it the
    value [km * 1000 + m], which is not negative. *)
Theorem map_label_parses (matches : py (list nat)) (text label : string) :
  Map.find_chainage matches text = Some label →
  ∃ a b km m,
    label = a +:+ "+" +:+ b ∧
    Str.digits_val 0 a = Some km ∧ Str.digits_val 0 b = Some m ∧
    App.parse_chainage label = Some (km * 1000 + m) ∧ 0 ≤ km * 1000 + m.
Proof.
  intros Hfind.
  destruct (find_chainage_form _ _ _ Hfind) as (a & b & -> & Ha & Hb).
  destruct (parse_chainage_label a b Ha Hb) as (km & m & Hva & Hvb & Hkm & Hm & Hp).
  exists a, b, km, m. repeat split; try assumption. lia.
Qed.

Lemma map_label_parses_witness :
  ∃ a b km m,
    "5+300" = a +:+ "+" +:+ b ∧
    Str.digits_val 0 a = Some km ∧ Str.digits_val 0 b = Some m ∧
    App.parse_chainage "5+300" = Some (km * 1000 + m) ∧ 0 ≤ km * 1000 + m.
Proof.
  apply (map_label_parses (Ok [16%nat]) map_report "5+300").
  reflexivity.
Defined.

(** ** The points of the map *)

Lemma reference_line (n : Z) :
  App.interpolate_gps (VNum (inject_Z n)) (Map.of_chainage Map.START_CH)
    (Map.of_chainage Map.END_CH) Map.START_GPS Map.END_GPS =
  VTuple [VNum (10.310709 + (10.306490 - 10.310709)
                  * clamp ((inject_Z n - inject_Z 4100) / (inject_Z 362500 - inject_Z 4100)));
          VNum (77.944926 + (77.943170 - 77.944926)
                  * clamp ((inject_Z n - inject_Z 4100) / (inject_Z 362500 - inject_Z 4100)))]%Q.
Proof.
  change (Map.of_chainage Map.START_CH) with (VNum (inject_Z 4100)).
  change (Map.of_chainage Map.END_CH) with (VNum (inject_Z 362500)).
  unfold Map.START_GPS, Map.END_GPS.
  apply interpolate_gps_numbers. discriminate.
Qed.

(** What an intervention puts on the map.  Nothing is raised.  There is
    no point when the cost is not positive, when no label was found, or
    when the label has the value 0 (as "0+000": a chainage of zero counts
    as no chainage).  Otherwise there is one point, named after the key
    and the label, on the reference line: inside the box of the two GPS
    positions, at the first of them up to chainage 4+100 and at the
    second from 362+500 on. *)
Theorem map_step_point (intervention_key : string) (item_total_cost : Q)
    (matches : py (list nat)) (text : string) :
  ∃ points,
    Map.map_step intervention_key item_total_cost (Map.find_chainage matches text)
      = Ok points ∧
    ((item_total_cost <= 0)%Q → points = []) ∧
    (Map.find_chainage matches text = None → points = []) ∧
    (∀ label, Map.find_chainage matches text = Some label →
       App.parse_chainage label = Some 0 → points = []) ∧
    (∀ label n,
       (0 < item_total_cost)%Q →
       Map.find_chainage matches text = Some label →
       App.parse_chainage label = Some n → n ≠ 0 →
       ∃ la lo,
         points = [Map.MapEntry (intervention_key +:+ " (at " +:+ label +:+ ")")
                     (VNum la) (VNum lo)] ∧
         (10.306490 <= la <= 10.310709)%Q ∧ (77.943170 <= lo <= 77.944926)%Q ∧
         (n ≤ 4100 → (la == 10.310709)%Q ∧ (lo == 77.944926)%Q) ∧
         (362500 ≤ n → (la == 10.306490)%Q ∧ (lo == 77.943170)%Q)).
Proof.
  unfold Map.map_step.
  destruct (Qlt_le_dec 0 item_total_cost) as [Hpos|Hle].
  2:{ exists []. split; [reflexivity|]. repeat split; auto. intros. lra. }
  destruct (Map.find_chainage matches text) as [label|] eqn:Hfind.
  2:{ exists []. split; [reflexivity|]. repeat split; auto; intros; try lra; discriminate. }
  destruct (find_chainage_form _ _ _ Hfind) as (a & b & Hlabel & Hda & Hdb).
  destruct (parse_chainage_label a b Hda Hdb) as (km & m & Ha & Hb & Hkm & Hm & Hparse).
  rewrite <- Hlabel in Hparse.
  assert (∃ c rest, label = String c rest) as (c & rest & Hcons).
  { clear -Hparse. destruct label as [|c rest]; [discriminate Hparse | eauto]. }
  unfold Map.map_point. rewrite Hcons, <- Hcons, Hparse.
  destruct (km * 1000 + m =? 0) eqn:Hz.
  { exists []. split; [reflexivity|]. repeat split; auto; intros; try lra.
    apply Z.eqb_eq in Hz. congruence. }
  apply Z.eqb_neq in Hz.
  change (Map.of_chainage (Some (km * 1000 + m)))
    with (VNum (inject_Z (km * 1000 + m))).
  rewrite reference_line. simpl.
  eexists. split; [reflexivity|].
  split; [intros; lra|]. split; [discriminate|].
  split; [intros l [= <-] Hp0; congruence|].
  intros l n _ [= <-] Hp Hn0. rewrite Hparse in Hp. injection Hp as <-.
  eexists _, _. split; [reflexivity|].
  set (f := ((inject_Z (km * 1000 + m) - inject_Z 4100)
             / (inject_Z 362500 - inject_Z 4100))%Q).
  pose proof (clamp_bounds f) as [Hc0 Hc1].
  split; [lra|]. split; [lra|]. split.
  - intros Hlow. assert (clamp f == 0)%Q as ->; [|split; ring].
    apply clamp_zero. unfold f. apply Qle_shift_div_r; [reflexivity|].
    rewrite Qmult_0_l. rewrite Zle_Qle in Hlow. lra.
  - intros Hhigh. assert (clamp f == 1)%Q as ->; [|split; ring].
    apply clamp_one. unfold f. apply Qle_shift_div_l; [reflexivity|].
    rewrite Zle_Qle in Hhigh. lra.
Qed.

Lemma map_step_point_witness :
  ∃ la lo,
    Map.map_step "pothole" 100 (Map.find_chainage (Ok [16%nat]) map_report)
      = Ok [Map.MapEntry "pothole (at 5+300)" (VNum la) (VNum lo)] ∧
    (10.306490 <= la <= 10.310709)%Q ∧ (77.943170 <= lo <= 77.944926)%Q.
Proof.
  destruct (map_step_point "pothole" 100 (Ok [16%nat]) map_report)
    as (points & Hstep & _ & _ & _ & Hpoint).
  destruct (Hpoint "5+300" 5300) as (la & lo & Hpoints & Hla & Hlo & _).
  - reflexivity.
  - reflexivity.
  - reflexivity.
  - discriminate.
  - exists la, lo. rewrite Hpoints in Hstep. auto.
Defined.

(** ** The window searched for a label *)

Lemma take_skip (n : nat) (s : string) : s = Str.take n s +:+ skip n s.
Proof.
  revert s. induction n as [|n IH]; intros s; [reflexivity|].
  destruct s as [|c s]; [reflexivity|].
  change (String c s = String c (Str.take n s +:+ skip n s)). by rewrite <- IH.
Qed.

Lemma length_take (n : nat) (s : string) :
  (n ≤ String.length s)%nat → String.length (Str.take n s) = n.
Proof.
  revert s. induction n as [|n IH]; intros s H; [reflexivity|].
  destruct s as [|c s]; simpl in *; [lia|]. rewrite IH; lia.
Qed.

Lemma length_skip (n : nat) (s : string) :
  String.length (skip n s) = (String.length s - n)%nat.
Proof.
  revert s. induction n as [|n IH]; intros s; simpl; [lia|].
  destruct s as [|c s]; simpl; [reflexivity | apply IH].
Qed.

(** The window is the piece of the text that ends where the match starts
    and is 150 characters long, or as long as the text before the match
    when that is shorter. *)
Theorem search_window_before_match (text : string) (match_start : nat) :
  (match_start ≤ String.length text)%nat →
  ∃ before after,
    text = before +:+ Map.search_window text match_start +:+ after ∧
    String.length before = (match_start - 150)%nat ∧
    String.length (Map.search_window text match_start) = Nat.min 150 match_start.
Proof.
  intros Hle. unfold Map.search_window, slice.
  set (a := (match_start - 150)%nat).
  set (k := (match_start - a)%nat).
  exists (Str.take a text), (skip k (skip a text)).
  split; [|split].
  - rewrite <- take_skip. apply take_skip.
  - apply length_take. lia.
  - rewrite length_take; [lia|]. rewrite length_skip. lia.
Qed.

Lemma search_window_before_match_witness :
  ∃ before after,
    map_report = before +:+ Map.search_window map_report 16 +:+ after ∧
    String.length before = 0%nat ∧
    String.length (Map.search_window map_report 16) = 16%nat.
Proof.
  apply (search_window_before_match map_report 16). simpl. lia.
Defined.

(** ** The most expensive item *)

Lemma max_by_cost_snoc (first : App.result_item) (others : list App.result_item)
    (y : App.result_item) :
  max_by_cost first (others ++ [y]) =
    if Qlt_le_dec (App.Material_Cost (max_by_cost first others)) (App.Material_Cost y)
    then y else max_by_cost first others.
Proof. unfold max_by_cost. by rewrite fold_left_app. Qed.

Lemma max_by_cost_first (first : App.result_item) (others : list App.result_item) :
  ∃ l1 l2,
    first :: others = l1 ++ max_by_cost first others :: l2 ∧
    Forall (λ x, App.Material_Cost x < App.Material_Cost (max_by_cost first others))%Q l1 ∧
    Forall (λ x, App.Material_Cost x <= App.Material_Cost (max_by_cost first others))%Q l2.
Proof.
  induction others as [|y others IH] using rev_ind.
  - exists [], []. repeat split; constructor.
  - destruct IH as (l1 & l2 & Heq & H1 & H2).
    rewrite max_by_cost_snoc.
    set (best := max_by_cost first others) in *.
    destruct (Qlt_le_dec (App.Material_Cost best) (App.Material_Cost y)) as [Hlt|Hle].
    + exists (l1 ++ best :: l2), [].
      split; [by rewrite app_comm_cons, Heq|]. split; [|constructor].
      apply Forall_app. split; [|constructor].
      * eapply Forall_impl; [|exact H1]. simpl. intros x Hx. lra.
      * exact Hlt.
      * eapply Forall_impl; [|exact H2]. simpl. intros x Hx. lra.
    + exists l1, (l2 ++ [y]).
      split; [by rewrite app_comm_cons, Heq, <- app_assoc|].
      split; [exact H1|].
      apply Forall_app. split; [exact H2|]. constructor; [exact Hle | constructor].
Qed.

(** The item shown as the most expensive is an entry of the list, costs
    at least as much as every entry, and is the first of those that cost
    as much; only for the empty list there is none. *)
Theorem most_expensive_is_first_maximum (results_list : list App.result_item) :
  match most_expensive results_list with
  | None => results_list = []
  | Some best =>
      ∃ l1 l2,
        results_list = l1 ++ best :: l2 ∧
        Forall (λ x, App.Material_Cost x < App.Material_Cost best)%Q l1 ∧
        Forall (λ x, App.Material_Cost x <= App.Material_Cost best)%Q l2
  end.
Proof.
  destruct results_list as [|first others]; [reflexivity|].
  apply max_by_cost_first.
Qed.

(** ** Counting occurrences *)

Lemma contains_count_from (p s : string) :
  p ≠ "" → Str.contains p s = true → 1 ≤ Str.count_from p s 0.
Proof.
  intros Hp. induction s as [|c s IH]; simpl.
  - destruct p; [done | discriminate].
  - destruct p as [|a p]; [done|].
    change (match (String a p) with "" => true | String a0 p' => Ascii.eqb a0 c && Str.startswith p' s end)
      with (Str.startswith (String a p) (String c s)).
    destruct (Str.startswith (String a p) (String c s)); simpl.
    + intros _. pose proof (count_from_nonneg (String a p) s (String.length p - 0)).
      lia.
    + exact IH.
Qed.

Lemma contains_count (p s : string) : Str.contains p s = true → 1 ≤ Str.count p s.
Proof.
  destruct p as [|a p].
  - intros _. unfold Str.count. lia.
  - intros H. unfold Str.count. by apply contains_count_from.
Qed.

(** For an entry with a per-item list (and no per-meter list) whose key
    is in the text - the only case in which the loop looks at it - the
    quantity is the number of occurrences of the key, which is at least
    one: the fallback to 1 for a count of zero is never reached. *)
Theorem per_item_quantity_is_count :
  (∀ (key text : string) (s : specs material),
     materials_per_meter s = None → is_Some (materials_per_item s) →
     Str.contains (Str.lower key) text = true →
     App.quantity_logic key s text = Ok (inject_Z (Str.count (Str.lower key) text), "item") ∧
     1 ≤ Str.count (Str.lower key) text) ∧
  (∀ (key text : string) (s : specs loc),
     materials_per_meter s = None → is_Some (materials_per_item s) →
     Str.contains (Str.lower key) text = true →
     Main.quantity_logic key s text = Ok (inject_Z (Str.count (Str.lower key) text), "item") ∧
     1 ≤ Str.count (Str.lower key) text).
Proof.
  split; intros key text s Hm [l Hi] Hin;
    pose proof (contains_count _ _ Hin) as Hc; (split; [|exact Hc]).
  - unfold App.quantity_logic. rewrite Hm, Hi. simpl.
    destruct (Str.count (Str.lower key) text =? 0) eqn:Hz; [|reflexivity].
    apply Z.eqb_eq in Hz. lia.
  - unfold Main.quantity_logic. rewrite Hm, Hi. simpl.
    destruct (Str.count (Str.lower key) text =? 0) eqn:Hz; [|reflexivity].
    apply Z.eqb_eq in Hz. lia.
Qed.

Lemma per_item_quantity_is_count_witness :
  App.quantity_logic "Signboard" Sample.signboard
    (Str.lower "A signboard here, a signboard there.")
    = Ok (inject_Z (Str.count "signboard" (Str.lower "A signboard here, a signboard there.")),
          "item") ∧
  1 ≤ Str.count "signboard" (Str.lower "A signboard here, a signboard there.").
Proof.
  destruct per_item_quantity_is_count as [Happ _].
  apply (Happ "Signboard" (Str.lower "A signboard here, a signboard there.")
           Sample.signboard).
  - reflexivity.
  - by eexists.
  - reflexivity.
Defined.

(** ** What the quantity logic returns and raises *)

Lemma main_quantity_nonneg {A} (key text : string) (s : specs A) (q : Q) (u : string) :
  Main.quantity_logic key s text = Ok (q, u) → (0 <= q)%Q.
Proof.
  unfold Main.quantity_logic.
  pose proof (count_quantity_nonneg _ (count_nonneg (Str.lower key) text)) as Hcount.
  quantity_cases; try (intros [= <- <-]; first [exact Hcount | lra]).
  - apply group_float_nonneg.
  - destruct (pothole_volume l l0) as [x|] eqn:Hx; [|discriminate].
    intros [= <- <-]. by apply pothole_volume_nonneg in Hx.
Qed.

Lemma road_studs_logic_nonneg (key text : string) (r r' : loc) (q q' : Q)
    (u u' : string) (h h' : heap) :
  Main.road_studs_logic key r text q u h = Ok ((q', u', r'), h') →
  (0 <= q)%Q → (0 <= q')%Q.
Proof.
  unfold Main.road_studs_logic.
  destruct (String.eqb _ _); [|by intros [= <- _ _ _]].
  destruct (Re.search pat_chainage_range text) as [caps|].
  - unfold mbind, M_bind, lift, mret, M_ret.
    destruct (studs_of_range caps) as [x|] eqn:Hx; [|discriminate].
    destruct (Main.adjust_spec r h) as [[? ?]|]; [|discriminate].
    intros [= <- _ _ _] _. by apply studs_of_range_nonneg in Hx.
  - unfold mbind, M_bind, mret, M_ret.
    destruct (Main.adjust_spec r h) as [[? ?]|]; [|discriminate].
    intros [= <- _ _ _] _. lra.
Qed.



Lemma float_group_returns (r : Re.t) (text u : string) (caps : list string) :
  simple_groups r = true → group_classes r = [Str.is_digit] →
  Re.search r text = Some caps →
  ∃ q, (g ← group1 caps; x ← py_float g; Ok (x, u)) = Ok (q, u).
Proof.
  intros Hs Hg Hsearch.
  destruct (search_one_group r _ text caps Hs Hg Hsearch) as (g & -> & Hrun).
  destruct (py_float_digits g Hrun) as (v & Hv & _).
  exists (inject_Z v). simpl. by rewrite Hv.
Qed.

Lemma app_quantity_raises_pothole (key text : string) (s : specs material) (e : exn) :
  App.quantity_logic key s text = Raise e → Str.lower key = "pothole".
Proof.
  unfold App.quantity_logic.
  repeat match goal with
    | |- context [if String.eqb ?a ?b then _ else _] =>
        destruct (String.eqb_spec a b)
    | |- context [if ?b then _ else _] => destruct b
    end; try discriminate; try (intros _; assumption).
  - destruct (Re.search pat_length_m text) as [caps|] eqn:Hs; [|discriminate].
    destruct (float_group_returns pat_length_m text "meter" caps eq_refl eq_refl Hs)
      as [q ->]. discriminate.
  - destruct (Re.search pat_chainage_range text) as [caps|] eqn:Hs; [|discriminate].
    destruct (chainage_range_found text caps Hs) as (a & b & c & d & _ & ->).
    discriminate.
Qed.

Lemma main_quantity_raises_pothole {A} (key text : string) (s : specs A) (e : exn) :
  Main.quantity_logic key s text = Raise e → Str.lower key = "pothole".
Proof.
  unfold Main.quantity_logic.
  repeat match goal with
    | |- context [if String.eqb ?a ?b then _ else _] =>
        destruct (String.eqb_spec a b)
    | |- context [if ?b then _ else _] => destruct b
    end; try discriminate; try (intros _; assumption).
  - destruct (Re.search pat_length_m text) as [caps|] eqn:Hs; [|discriminate].
    destruct (float_group_returns pat_length_m text "meter" caps eq_refl eq_refl Hs)
      as [q ->]. discriminate.
Qed.



(** ** When a run aborts *)

Lemma for_in_raise {A S} (body : S → A → py S) (xs : list A) (st : S) (e : exn) :
  for_in xs body st = Raise e → ∃ x s, x ∈ xs ∧ body s x = Raise e.
Proof.
  revert st. induction xs as [|x xs IH]; intros st; simpl; [discriminate|].
  destruct (body st x) as [s1|e1] eqn:Hb; simpl.
  - intros H. destruct (IH _ H) as (y & s & Hy & Hr).
    exists y, s. split; [set_solver | exact Hr].
  - intros [= <-]. exists x, st. split; [set_solver | exact Hb].
Qed.

Lemma for_in_M_raise {A S} (body : S → A → M S) (xs : list A) (st : S) (h : heap)
    (e : exn) :
  for_in_M xs body st h = Raise e → ∃ x s h1, x ∈ xs ∧ body s x h1 = Raise e.
Proof.
  revert st h. induction xs as [|x xs IH]; intros st h; simpl; [discriminate|].
  unfold mbind, M_bind.
  destruct (body st x h) as [[s1 h1]|e1] eqn:Hb.
  - intros H. destruct (IH _ _ H) as (y & s & h2 & Hy & Hr).
    exists y, s, h2. split; [set_solver | exact Hr].
  - intros [= <-]. exists x, st, h. split; [set_solver | exact Hb].
Qed.

Lemma matched_elem {A} (text key : string) (a : A) (db : list (string * A)) :
  (key, a) ∈ db → Str.contains (Str.lower key) (Str.lower text) = true →
  key ∈ matched text db.
Proof.
  intros Hin Hc. unfold matched. apply list_elem_of_filter. split; [exact Hc|].
  apply list_elem_of_fmap. exists (key, a). auto.
Qed.

Lemma app_iteration_raise (text : string) (prices : price_table) (st : App.state)
    (key : string) (s : specs material) (e : exn) :
  App.iteration (Str.lower text) prices st (key, s) = Raise e →
  Str.contains (Str.lower key) (Str.lower text) = true ∧
  App.quantity_logic key s (Str.lower text) = Raise e.
Proof.
  unfold App.iteration.
  destruct (Str.contains (Str.lower key) (Str.lower text)); [|discriminate].
  destruct (App.quantity_logic key s (Str.lower text)) as [[q u]|e1]; simpl.
  - destruct (App.calculate_cost _ _ _ _ _ _). destruct (Qlt_le_dec _ _); discriminate.
  - intros [= <-]. auto.
Qed.

Lemma adjust_spec_raise (r : loc) (h : heap) (e : exn) :
  Main.adjust_spec r h = Raise e →
  e = IndexError ∧ materials_per_meter (dicts h r) = Some [].
Proof.
  destruct (materials_per_meter (dicts h r)) as [[|m rest]|] eqn:Hm.
  - unfold Main.adjust_spec, dict_read, dict_copy, dict_move_meter_to_item,
      set_first_item_quantity, mbind, M_bind, mret, M_ret.
    rewrite Hm. simpl. rewrite !fn_lookup_insert, Hm. simpl.
    rewrite !fn_lookup_insert. simpl. intros [= <-]. auto.
  - rewrite (adjust_spec_meter _ _ _ _ Hm). discriminate.
  - rewrite (adjust_spec_no_meter _ _ Hm). discriminate.
Qed.

Lemma main_iteration_raise (text : string) (prices : price_table) (st : Q * list line)
    (key : string) (r : loc) (h : heap) (e : exn) :
  Main.iteration (Str.lower text) prices st (key, r) h = Raise e →
  Str.contains (Str.lower key) (Str.lower text) = true ∧
  ((e = ValueError ∧ Str.lower key = "pothole") ∨
   (e = IndexError ∧ Str.lower key = "road studs" ∧
    materials_per_meter (dicts h r) = Some [])).
Proof.
  unfold Main.iteration.
  destruct (Str.contains (Str.lower key) (Str.lower text)); [|discriminate].
  split; [reflexivity|]. revert H.
  unfold mbind at 1, M_bind at 1, dict_read at 1.
  unfold mbind at 1, M_bind at 1, lift.
  destruct (Main.quantity_logic key (dicts h r) (Str.lower text)) as [[q0 u0]|e1] eqn:Hq.
  2:{ intros [= <-]. left. split.
      - by apply (main_quantity_raises _ _ _ _ Hq).
      - by apply (main_quantity_raises_pothole _ _ _ _ Hq). }
  unfold mbind at 1, M_bind at 1.
  destruct (Main.road_studs_logic key r (Str.lower text) q0 u0 h)
    as [[[[q u] r'] h1]|e1] eqn:Hr.
  - unfold Main.calculate_cost, mbind, M_bind, dict_read, get_heap, mret, M_ret.
    destruct (cost_loop _ _ _ _). discriminate.
  - intros [= <-]. right.
    unfold Main.road_studs_logic in Hr.
    destruct (String.eqb_spec (Str.lower key) "road studs") as [Hkey|]; [|discriminate].
    destruct (Re.search pat_chainage_range (Str.lower text)) as [caps|] eqn:Hs.
    + destruct (chainage_range_found _ caps Hs) as (a & b & c & d & _ & Hst).
      unfold mbind, M_bind, lift, mret, M_ret in Hr. rewrite Hst in Hr.
      destruct (Main.adjust_spec r h) as [[? ?]|e2] eqn:Ha; [discriminate|].
      injection Hr as <-. apply adjust_spec_raise in Ha as [-> Hm]. auto.
    + unfold mbind, M_bind, mret, M_ret in Hr.
      destruct (Main.adjust_spec r h) as [[? ?]|e2] eqn:Ha; [discriminate|].
      injection Hr as <-. apply adjust_spec_raise in Ha as [-> Hm]. auto.
Qed.



(** ** The entries of [results_list] *)

(** Every entry of [results_list] has a positive material cost, and the
    entries are among the interventions the text mentions, in the order
    of the table: an intervention whose total is zero, for one because
    none of its materials has a price, is in the report and not in the
    list. *)
Theorem results_are_positive_matches (spec_database : list (string * specs material))
    (text : string) (prices : price_table) (st : App.state) :
  App.run spec_database text prices = Ok st →
  Forall (λ r, 0 < App.Material_Cost r)%Q (App.results_list st) ∧
  sublist (App.Intervention <$> App.results_list st) (matched text spec_database).
Proof.
  intros Hrun. unfold App.run in Hrun.
  destruct (for_in spec_database _ _) as [st1|] eqn:Hloop; [|discriminate].
  injection Hrun as <-. simpl.
  pose (P := λ (pre : list (string * specs material)) (s : App.state),
          Forall (λ r, 0 < App.Material_Cost r)%Q (App.results_list s) ∧
          sublist (App.Intervention <$> App.results_list s) (matched text pre)).
  assert (P ([] ++ spec_database) st1) as HP; [|exact HP].
  apply (for_in_ind (λ _, True) P (App.iteration (Str.lower text) prices)) with
    (s := App.State 0 [] []); [| by apply Forall_forall | | exact Hloop].
  - unfold P. clear. intros pre [key s] st st' _ (Hpos & Hsub) Hstep.
    apply app_iteration_spec in Hstep. rewrite matched_snoc.
    destruct (Str.contains (Str.lower key) (Str.lower text)).
    + destruct Hstep as (q & u & t & _ & _ & _ & _ & _ & ->).
      destruct (Qlt_le_dec 0 t) as [Hlt|].
      * split.
        -- apply Forall_app. split; [exact Hpos|]. constructor; [exact Hlt | constructor].
        -- rewrite fmap_app. simpl. by apply sublist_app.
      * split; [exact Hpos|]. by apply sublist_inserts_r.
    + subst st'. rewrite app_nil_r. auto.
  - unfold P. simpl. split; constructor.
Qed.

Lemma results_are_positive_matches_witness :
  ∃ st, App.run SampleText.app_database SampleText.full_report Sample.prices = Ok st ∧
        Forall (λ r, 0 < App.Material_Cost r)%Q (App.results_list st) ∧
        sublist (App.Intervention <$> App.results_list st)
                (matched SampleText.full_report SampleText.app_database).
Proof.
  assert (∃ st, App.run SampleText.app_database SampleText.full_report Sample.prices
                = Ok st) as [st Hrun].
  { eexists. vm_compute. reflexivity. }
  exists st. split; [exact Hrun|].
  apply (results_are_positive_matches _ _ _ _ Hrun).
Defined.

(** ** A text that mentions no intervention *)

Lemma matched_nil_forall {A} (text : string) (db : list (string * A)) :
  matched text db = [] →
  Forall (λ e, Str.contains (Str.lower e.1) (Str.lower text) = false) db.
Proof.
  unfold matched. induction db as [|[k a] db IH]; simpl; [constructor|].
  rewrite filter_cons. simpl.
  destruct (Str.contains (Str.lower k) (Str.lower text)) eqn:Hc; simpl.
  - discriminate.
  - intros H. constructor; [exact Hc | by apply IH].
Qed.

(** When the text mentions no intervention of the table (an empty table,
    for one), the run ends with a total of 0, a report that has the
    summary line alone and, in [app.py], no result; [main.py] leaves the
    store as it is. *)
Theorem run_without_match :
  (∀ (spec_database : list (string * specs material)) (text : string)
     (prices : price_table),
     matched text spec_database = [] →
     App.run spec_database text prices = Ok (App.State 0 [LSummary 0] [])) ∧
  (∀ (spec_database : list (string * loc)) (text : string) (prices : price_table)
     (h : heap),
     matched text spec_database = [] →
     Main.run spec_database text prices h = Ok ((0%Q, [LSummary 0]), h)).
Proof.
  split.
  - intros db text prices Hm. apply matched_nil_forall in Hm.
    unfold App.run.
    assert (∀ st, for_in db (App.iteration (Str.lower text) prices) st = Ok st) as ->;
      [|reflexivity].
    induction Hm as [|[k s] db Hk _ IH]; intros st; simpl; [reflexivity|].
    simpl in Hk. rewrite Hk. simpl. apply IH.
  - intros db text prices h Hm. apply matched_nil_forall in Hm.
    unfold Main.run, mbind, M_bind, mret, M_ret.
    assert (∀ st, for_in_M db (Main.iteration (Str.lower text) prices) st h
                  = Ok (st, h)) as ->; [|reflexivity].
    induction Hm as [|[k r] db Hk _ IH]; intros st; simpl; [reflexivity|].
    simpl in Hk. unfold mbind, M_bind. rewrite Hk. simpl. apply IH.
Qed.

Lemma run_without_match_witness :
  App.run SampleText.app_database "Nothing to report." Sample.prices
    = Ok (App.State 0 [LSummary 0] []) ∧
  Main.run SampleText.main_database "Nothing to report." Sample.prices Sample.store
    = Ok ((0%Q, [LSummary 0]), Sample.store).
Proof.
  destruct run_without_match as [Happ Hmain].
  split; [apply Happ | apply Hmain]; reflexivity.
Defined.

(** ** The manual tab *)

Lemma dict_get_elem (db : list (string * specs material)) (key : string)
    (s : specs material) :
  Manual.dict_get db key = Ok s → (key, s) ∈ db.
Proof.
  induction db as [|[k s'] db IH]; simpl; [discriminate|].
  destruct (String.eqb_spec k key) as [->|Hne].
  - intros [= <-]. set_solver.
  - intros H. specialize (IH H). set_solver.
Qed.

Lemma dict_get_raise (db : list (string * specs material)) (key : string) (e : exn) :
  Manual.dict_get db key = Raise e → e = KeyError ∧ key ∉ db.*1.
Proof.
  induction db as [|[k s'] db IH]; simpl.
  - intros [= <-]. split; [reflexivity | apply not_elem_of_nil].
  - destruct (String.eqb_spec k key) as [->|Hne]; [discriminate|].
    intros H. destruct (IH H) as [-> Hnot]. split; [reflexivity|].
    apply not_elem_of_cons. split; [congruence | exact Hnot].
Qed.

Lemma dict_get_unique (db : list (string * specs material)) (key : string)
    (s : specs material) :
  NoDup db.*1 → (key, s) ∈ db → Manual.dict_get db key = Ok s.
Proof.
  induction db as [|[k s'] db IH]; simpl; intros Hnd Hin; [set_solver|].
  apply list.NoDup_cons in Hnd as [Hk Hnd].
  destruct (String.eqb_spec k key) as [->|Hne].
  - apply elem_of_cons in Hin as [[= ->]|Hin]; [reflexivity|].
    exfalso. apply Hk. apply list_elem_of_fmap. exists (key, s). auto.
  - apply elem_of_cons in Hin as [[= -> ->]|Hin]; [done|]. by apply IH.
Qed.

(** One turn of the loop over the manual items. *)
Lemma manual_iteration_spec (db : list (string * specs material)) (prices : price_table)
    (st st' : App.state) (item : Manual.manual_item) :
  Manual.iteration db prices st item = Ok st' →
  ∃ s t,
    Manual.dict_get db (Manual.item_key item) = Ok s ∧
    t = Qsum (map (λ m, Manual.qty_needed (Manual.item_quantity item) m
                        * unit_price prices m)%Q
                  (priced prices (App.materials_list s))) ∧
    App.total_project_cost st' = (App.total_project_cost st + t)%Q ∧
    item_totals (App.report_lines st') = item_totals (App.report_lines st) ++ [t] ∧
    total_keys (App.report_lines st') =
      total_keys (App.report_lines st) ++ [Manual.item_key item] ∧
    App.results_list st' =
      App.results_list st ++
      (if Qlt_le_dec 0 t
       then [App.ResultItem (Manual.item_key item) (Manual.item_quantity item)
               (Manual.item_unit item) (source_clause s) t]
       else []).
Proof.
  unfold Manual.iteration.
  destruct (Manual.dict_get db (Manual.item_key item)) as [s|]; [|discriminate].
  simpl. rewrite cost_loop_spec. set (t := Qsum _).
  pose proof (item_totals_cost_lines (Manual.qty_needed (Manual.item_quantity item))
                prices (App.materials_list s)) as [Hit Hkeys].
  intros Hst. exists s, t. split; [reflexivity|]. split; [reflexivity|].
  unfold item_totals, total_keys in *.
  destruct (Qlt_le_dec 0 t); injection Hst as <-; simpl;
    rewrite !omap_app, Hit, Hkeys; simpl; rewrite ?app_nil_r; auto.
Qed.

Lemma manual_iteration_returns (db : list (string * specs material))
    (prices : price_table) (st : App.state) (item : Manual.manual_item)
    (s : specs material) :
  Manual.dict_get db (Manual.item_key item) = Ok s →
  ∃ st', Manual.iteration db prices st item = Ok st'.
Proof.
  intros Hs. unfold Manual.iteration. rewrite Hs. simpl.
  destruct (cost_loop _ _ _ _). destruct (Qlt_le_dec _ _); eauto.
Qed.

Lemma manual_iteration_raise (db : list (string * specs material))
    (prices : price_table) (st : App.state) (item : Manual.manual_item) (e : exn) :
  Manual.iteration db prices st item = Raise e →
  e = KeyError ∧ Manual.item_key item ∉ db.*1.
Proof.
  unfold Manual.iteration.
  destruct (Manual.dict_get db (Manual.item_key item)) as [s|e1] eqn:Hs; simpl.
  - destruct (cost_loop _ _ _ _). destruct (Qlt_le_dec _ _); discriminate.
  - intros [= <-]. by apply dict_get_raise in Hs.
Qed.

(** "Calculate Manual Cost" aborts only with [KeyError], on an item whose
    intervention is not in the table; when every item names an
    intervention of the table it ends normally. *)
Theorem manual_aborts_only_on_unknown_key (db : list (string * specs material))
    (items : list Manual.manual_item) (prices : price_table) :
  (∀ e, Manual.calculate db items prices = Raise e →
        e = KeyError ∧ ∃ item, item ∈ items ∧ Manual.item_key item ∉ db.*1) ∧
  (Forall (λ item, Manual.item_key item ∈ db.*1) items →
   ∃ st, Manual.calculate db items prices = Ok st).
Proof.
  assert (∀ e, Manual.calculate db items prices = Raise e →
        e = KeyError ∧ ∃ item, item ∈ items ∧ Manual.item_key item ∉ db.*1) as Hraise.
  { intros e Hrun. unfold Manual.calculate in Hrun.
    destruct (for_in items _ _) as [st|e1] eqn:Hloop; [discriminate|].
    injection Hrun as ->.
    apply for_in_raise in Hloop as (item & st & Hin & Hit).
    apply manual_iteration_raise in Hit as [-> Hnot]. eauto. }
  split; [exact Hraise|].
  intros Hall. destruct (Manual.calculate db items prices) as [st|e] eqn:Hrun; [eauto|].
  destruct (Hraise e eq_refl) as (_ & item & Hin & Hnot).
  rewrite list.Forall_forall in Hall. by specialize (Hall item Hin).
Qed.

Lemma manual_aborts_only_on_unknown_key_witness :
  (∃ st, Manual.calculate SampleText.app_database
           [Manual.ManualItem "Pothole" 5 "m^3"] Sample.prices = Ok st) ∧
  KeyError = KeyError ∧
  ∃ item, item ∈ [Manual.ManualItem "Bridge" 1 "item"] ∧
          Manual.item_key item ∉ SampleText.app_database.*1.
Proof.
  split.
  - apply (manual_aborts_only_on_unknown_key SampleText.app_database
             [Manual.ManualItem "Pothole" 5 "m^3"] Sample.prices).
    repeat constructor.
  - apply (manual_aborts_only_on_unknown_key SampleText.app_database
             [Manual.ManualItem "Bridge" 1 "item"] Sample.prices).
    reflexivity.
Defined.

Lemma manual_item_total_nonneg (prices : price_table) (s : specs material) (q : Q) :
  prices_nonneg prices →
  (∀ m, m ∈ App.materials_list s → (0 <= quantity m)%Q) →
  (0 <= q)%Q →
  (0 <= Qsum (map (λ m, Manual.qty_needed q m * unit_price prices m)%Q
                  (priced prices (App.materials_list s))))%Q.
Proof.
  intros Hp Hm Hq. apply Qsum_nonneg. apply Forall_forall. intros x Hx.
  apply list_elem_of_In, list_elem_of_fmap in Hx as (m & -> & Hin).
  apply list_elem_of_filter in Hin as [_ Hin].
  apply Qmult_le_0_compat; [|by apply unit_price_nonneg].
  unfold Manual.qty_needed. apply Qmult_le_0_compat; auto.
Qed.



(** What the loop over manual items adds to the total and to the result
    list does not depend on the state it starts from. *)
Lemma manual_loop_increment (db : list (string * specs material)) (prices : price_table)
    (items : list Manual.manual_item) (sa sa' sb : App.state) :
  for_in items (Manual.iteration db prices) sa = Ok sa' →
  ∃ sb' added,
    for_in items (Manual.iteration db prices) sb = Ok sb' ∧
    App.results_list sa' = App.results_list sa ++ added ∧
    App.results_list sb' = App.results_list sb ++ added ∧
    (App.total_project_cost sa' - App.total_project_cost sa
     == App.total_project_cost sb' - App.total_project_cost sb)%Q.
Proof.
  revert sa sb. induction items as [|item items IH]; intros sa sb; simpl.
  - intros [= <-]. exists sb, []. rewrite !app_nil_r. repeat split; lra.
  - destruct (Manual.iteration db prices sa item) as [sa1|] eqn:Ha; [|discriminate].
    simpl. intros Hrest.
    destruct (manual_iteration_spec _ _ _ _ _ Ha)
      as (s & t & Hs & Ht & Hta & _ & _ & Hra).
    destruct (manual_iteration_returns db prices sb item s Hs) as [sb1 Hb].
    destruct (manual_iteration_spec _ _ _ _ _ Hb)
      as (s' & t' & Hs' & Ht' & Htb & _ & _ & Hrb).
    rewrite Hs in Hs'. injection Hs' as <-. rewrite <- Ht in Ht'. subst t'.
    destruct (IH sa1 sb1 Hrest) as (sb' & added & Hloop & Hra' & Hrb' & Htot).
    rewrite Hb. simpl. exists sb'. eexists. split; [exact Hloop|].
    rewrite Hra', Hrb', Hra, Hrb, <- !app_assoc.
    split; [reflexivity|]. split; [reflexivity|].
    rewrite Hta, Htb in Htot. lra.
Qed.

Lemma for_in_app {A S} (body : S → A → py S) (xs ys : list A) (st : S) :
  for_in (xs ++ ys) body st = (st' ← for_in xs body st; for_in ys body st').
Proof.
  revert st. induction xs as [|x xs IH]; intros st; simpl; [reflexivity|].
  destruct (body st x); simpl; [apply IH | reflexivity].
Qed.



(** ** From the PDF tab to the manual tab *)

Lemma app_results_of (db : list (string * specs material)) (text : string)
    (prices : price_table) (st : App.state) :
  App.run db text prices = Ok st →
  Forall (result_of db prices) (App.results_list st).
Proof.
  intros Hrun. unfold App.run in Hrun.
  destruct (for_in db _ _) as [st1|] eqn:Hloop; [|discriminate].
  injection Hrun as <-. simpl.
  pose (P := λ (pre : list (string * specs material)) (s : App.state),
          Forall (result_of pre prices) (App.results_list s)).
  assert (P ([] ++ db) st1) as HP; [|exact HP].
  apply (for_in_ind (λ _, True) P (App.iteration (Str.lower text) prices)) with
    (s := App.State 0 [] []); [| by apply Forall_forall | | exact Hloop].
  - unfold P. clear. intros pre [key s] st st' _ Hitems Hstep.
    apply app_iteration_spec in Hstep.
    assert (Forall (result_of (pre ++ [(key, s)]) prices) (App.results_list st))
      as Hitems'.
    { apply list.Forall_forall. intros r Hr_in.
      rewrite list.Forall_forall in Hitems.
      destruct (Hitems r Hr_in) as (s' & Hin & Hr).
      exists s'. split; [|exact Hr].
      apply elem_of_app. by left. }
    destruct (Str.contains (Str.lower key) (Str.lower text)); [|by subst st'].
    destruct Hstep as (q & u & t & _ & Ht & _ & _ & _ & ->).
    destruct (Qlt_le_dec 0 t) as [Hlt|]; [|exact Hitems'].
    apply Forall_app. split; [exact Hitems'|].
    constructor; [|constructor]. exists s. simpl.
    split; [set_solver|]. split; [reflexivity|]. split; [exact Hlt|].
    rewrite <- (Ht []). unfold App.calculate_cost. by rewrite cost_loop_spec.
  - unfold P. simpl. constructor.
Qed.

Lemma Forall2_Qeq_refl (l : list Q) : Forall2 Qeq l l.
Proof. induction l; constructor; [reflexivity | assumption]. Qed.

Lemma fold_Qplus_shift (l : list Q) (a b : Q) :
  (fold_left Qplus l (a + b) == a + fold_left Qplus l b)%Q.
Proof.
  revert a b. induction l as [|x l IH]; intros a b; simpl; [reflexivity|].
  rewrite <- IH. apply fold_Qplus_proper; [apply Forall2_Qeq_refl | ring].
Qed.

Lemma Qsum_cons (x : Q) (l : list Q) : (Qsum (x :: l) == x + Qsum l)%Q.
Proof.
  unfold Qsum. simpl. rewrite <- fold_Qplus_shift.
  apply fold_Qplus_proper; [apply Forall2_Qeq_refl | ring].
Qed.

Lemma manual_reenter (db : list (string * specs material)) (prices : price_table)
    (rs : list App.result_item) (st0 : App.state) :
  NoDup db.*1 → Forall (result_of db prices) rs →
  ∃ st' rs',
    for_in (to_items rs) (Manual.iteration db prices) st0 = Ok st' ∧
    App.results_list st' = App.results_list st0 ++ rs' ∧
    Forall2 same_result rs rs' ∧
    (App.total_project_cost st'
     == App.total_project_cost st0 + Qsum (App.Material_Cost <$> rs'))%Q.
Proof.
  intros Hnd Hrs. revert st0.
  induction Hrs as [|r rs (s & Hin & Hclause & Hpos & Hcost) _ IH]; intros st0.
  - exists st0, []. simpl. rewrite app_nil_r. repeat split; [constructor|].
    unfold Qsum. simpl. lra.
  - pose proof (dict_get_unique db _ s Hnd Hin) as Hget.
    set (item := Manual.ManualItem (App.Intervention r) (App.Quantity r) (App.Unit r)).
    destruct (manual_iteration_returns db prices st0 item s Hget) as [st1 Hit].
    destruct (manual_iteration_spec _ _ _ _ _ Hit)
      as (s' & t & Hs' & Ht & Htot & _ & _ & Hres).
    simpl in Hs'. rewrite Hget in Hs'. injection Hs' as <-.
    assert (t == App.Material_Cost r)%Q as Hteq.
    { rewrite Ht, Hcost. apply Qsum_map_ext. intros m. simpl.
      by rewrite app_qty_needed. }
    destruct (Qlt_le_dec 0 t) as [Hlt|Hle]; [|lra].
    destruct (IH st1) as (st' & rs' & Hloop & Hres' & Hsame & Htot').
    change (to_items (r :: rs)) with (item :: to_items rs). simpl.
    rewrite Hit. simpl.
    eexists st', (_ :: rs'). split; [exact Hloop|].
    split; [by rewrite Hres', Hres, <- app_assoc|].
    split.
    + constructor; [|exact Hsame]. repeat split; simpl; try reflexivity.
      * by rewrite Hclause.
      * by rewrite Hteq.
    + rewrite Htot', Htot, fmap_cons, Qsum_cons. simpl. lra.
Qed.


Lemma sample_database_nodup : NoDup SampleText.app_database.*1.
Proof.
  simpl. apply list.NoDup_cons. split; [|apply NoDup_singleton].
  intros H. apply list_elem_of_singleton in H. discriminate.
Qed.


(** ** Units in the two tabs *)

Ltac unit_cases :=
  repeat match goal with
    | |- context [if ?b then _ else _] => destruct b
    | |- context [match Re.search ?p ?t with _ => _ end] => destruct (Re.search p t)
    | |- context [match ?c with Ok _ => _ | Raise _ => _ end] => destruct c
    | |- context [mbind _ ?c] => destruct c as [?|?]; simpl
    end.



(** * The store of [main.py] *)

Lemma frame_refl (h : heap) : frame h h.
Proof. repeat split; auto. Qed.

Lemma frame_trans (h1 h2 h3 : heap) : frame h1 h2 → frame h2 h3 → frame h1 h3.
Proof.
  intros (Hn1 & Hd1 & Hm1) (Hn2 & Hd2 & Hm2). split; [lia|]. split.
  - intros r Hr. rewrite Hd2 by lia. by apply Hd1.
  - intros m. destruct (Hm1 m) as (Ha & Hb & Hc), (Hm2 m) as (Ha' & Hb' & Hc').
    split; [congruence|]. split; [congruence|].
    destruct Hc' as [Hc'|Hc']; [|by right].
    destruct Hc as [Hc|Hc]; [left | right]; congruence.
Qed.

Lemma adjust_spec_changes (r r' : loc) (h h' : heap) :
  Main.adjust_spec r h = Ok (r', h') →
  frame h h' ∧
  (∀ m, mats h' m = mats h m ∨
        ∃ rest, materials_per_meter (dicts h r) = Some (m :: rest)).
Proof.
  destruct (materials_per_meter (dicts h r)) as [[|m0 rest]|] eqn:Hm.
  - intros H. exfalso. revert H.
    unfold Main.adjust_spec, dict_read, dict_copy, dict_move_meter_to_item,
      set_first_item_quantity, mbind, M_bind, mret, M_ret.
    rewrite Hm. simpl. rewrite !fn_lookup_insert, Hm. simpl.
    rewrite !fn_lookup_insert. discriminate.
  - rewrite (adjust_spec_meter _ _ _ _ Hm). intros [= <- <-]. split.
    + split; [simpl; lia|]. split.
      * intros x Hx. simpl. rewrite !fn_lookup_insert_ne by lia. reflexivity.
      * intros m. simpl. destruct (decide (m0 = m)) as [->|Hne].
        -- rewrite fn_lookup_insert. simpl. auto.
        -- rewrite fn_lookup_insert_ne by done. auto.
    + intros m. simpl. destruct (decide (m0 = m)) as [->|Hne].
      * right. eauto.
      * left. by rewrite fn_lookup_insert_ne.
  - rewrite (adjust_spec_no_meter _ _ Hm). intros [= <- <-].
    split; [apply frame_refl | auto].
Qed.

Lemma main_iteration_changes (text : string) (prices : price_table)
    (st st' : Q * list line) (key : string) (r : loc) (h h' : heap) :
  Main.iteration (Str.lower text) prices st (key, r) h = Ok (st', h') →
  frame h h' ∧
  (∀ m, mats h' m = mats h m ∨
        (Str.contains (Str.lower key) (Str.lower text) = true ∧
         Str.lower key = "road studs" ∧
         ∃ rest, materials_per_meter (dicts h r) = Some (m :: rest))) ∧
  (Str.lower key ≠ "road studs" → h' = h).
Proof.
  unfold Main.iteration.
  destruct (Str.contains (Str.lower key) (Str.lower text));
    [|intros [= <- <-]; split; [apply frame_refl | auto]].
  unfold mbind at 1, M_bind at 1, dict_read at 1.
  unfold mbind at 1, M_bind at 1, lift.
  destruct (Main.quantity_logic key (dicts h r) (Str.lower text)) as [[q0 u0]|];
    [|discriminate].
  unfold mbind at 1, M_bind at 1.
  destruct (Main.road_studs_logic key r (Str.lower text) q0 u0 h)
    as [[[[q u] r'] h1]|] eqn:Hr; [|discriminate].
  unfold Main.calculate_cost, mbind, M_bind, dict_read, get_heap, mret, M_ret.
  destruct (cost_loop _ _ _ _). intros [= <- <-].
  unfold Main.road_studs_logic in Hr.
  destruct (String.eqb_spec (Str.lower key) "road studs") as [Hkey|Hkey].
  - assert (∃ r0, Main.adjust_spec r h = Ok (r0, h1)) as [r0 Hadj].
    { destruct (Re.search pat_chainage_range (Str.lower text)) as [caps|].
      - unfold mbind, M_bind, lift, mret, M_ret in Hr.
        destruct (studs_of_range caps); [|discriminate].
        destruct (Main.adjust_spec r h) as [[r0 h2]|]; [|discriminate].
        injection Hr as _ _ _ <-. eauto.
      - unfold mbind, M_bind, mret, M_ret in Hr.
        destruct (Main.adjust_spec r h) as [[r0 h2]|]; [|discriminate].
        injection Hr as _ _ _ <-. eauto. }
    apply adjust_spec_changes in Hadj as [Hframe Hch].
    split; [exact Hframe|]. split; [|done].
    intros m. destruct (Hch m) as [Heq|Hfirst]; auto.
  - injection Hr as _ _ _ <-. split; [apply frame_refl | auto].
Qed.

Lemma for_in_M_states {A S} (body : S → A → M S) (xs : list A) (st st' : S)
    (h h' : heap) :
  for_in_M xs body st h = Ok (st', h') →
  xs = [] ∧ h' = h ∨
  ∃ x xs' s1 h1, xs = x :: xs' ∧ body st x h = Ok (s1, h1) ∧
                 for_in_M xs' body s1 h1 = Ok (st', h').
Proof.
  destruct xs as [|x xs']; simpl.
  - intros [= <- <-]. by left.
  - unfold mbind, M_bind.
    destruct (body st x h) as [[s1 h1]|] eqn:Hb; [|discriminate].
    intros H. right. exists x, xs', s1, h1. auto.
Qed.

(** A run of [main.py] leaves the entries of the table as they were and
    the names and units of all materials; it allocates, and the only
    quantities it changes - to 1 - are those of the first per-meter
    material of entries for road studs that the text mentions.  With no
    entry for road studs in the table the store is not touched at all. *)
Theorem main_run_frame (db : list (string * loc)) (text : string)
    (prices : price_table) (h h' : heap) (result : Q * list line) :
  Main.run db text prices h = Ok (result, h') →
  (Forall (λ e, (e.2 < next h)%nat) db →
   frame h h' ∧ ∀ m, mats h' m = mats h m ∨ first_stud_material db text h m) ∧
  (Forall (λ e, Str.lower e.1 ≠ "road studs") db → h' = h).
Proof.
  intros Hrun. unfold Main.run, mbind, M_bind, mret, M_ret in Hrun.
  destruct (for_in_M db _ _ h) as [[st1 h1]|] eqn:Hloop; [|discriminate].
  injection Hrun as _ <-. clear result. split.
  - intros Halloc.
    assert (∀ (xs pre : list (string * loc)) s h0,
              db = pre ++ xs → frame h h0 →
              for_in_M xs (Main.iteration (Str.lower text) prices) s h0 = Ok (st1, h1) →
              frame h0 h1 ∧
              ∀ m, mats h1 m = mats h0 m ∨ first_stud_material db text h m) as Hgen.
    { induction xs as [|[key r] xs IH]; intros pre s h0 Hdb Hf0 Hl.
      - simpl in Hl. injection Hl as _ <-. split; [apply frame_refl | auto].
      - apply for_in_M_states in Hl as [[? _] | (x & xs' & s1 & h2 & Heq & Hb & Hl)];
          [discriminate|].
        injection Heq as <- <-.
        apply main_iteration_changes in Hb as (Hf & Hch & _).
        destruct (IH (pre ++ [(key, r)]) s1 h2) as [Hf' Hch'];
          [by rewrite <- app_assoc | by apply (frame_trans h h0 h2) | exact Hl |].
        split; [by apply (frame_trans h0 h2 h1)|].
        intros m. destruct (Hch' m) as [Heq|Hfirst]; [|by right].
        rewrite Heq. destruct (Hch m) as [Heq0|(Hc & Hk & rest & Hm)]; [by left|].
        right. exists key, r, rest.
        assert ((key, r) ∈ db) as Hin
          by (rewrite Hdb; apply elem_of_app; right; apply elem_of_cons; by left).
        split; [exact Hin|]. split; [exact Hk|].
        split; [by apply (matched_elem _ _ r)|].
        destruct Hf0 as (_ & Hd & _). rewrite <- Hd; [exact Hm|].
        rewrite list.Forall_forall in Halloc. apply (Halloc _ Hin). }
    apply (Hgen db [] _ h eq_refl (frame_refl h) Hloop).
  - intros Hno. clear -Hloop Hno.
    revert Hloop. generalize (0%Q, @nil line). revert h.
    induction Hno as [|[key r] xs Hk _ IH]; intros h s Hl.
    + simpl in Hl. by injection Hl as _ <-.
    + apply for_in_M_states in Hl as [[? _] | (x & xs' & s1 & h2 & Heq & Hb & Hl)];
        [discriminate|].
      injection Heq as <- <-.
      apply main_iteration_changes in Hb as (_ & _ & Hsame).
      rewrite (Hsame Hk) in Hl. by apply (IH h s1).
Qed.

Lemma main_run_frame_witness :
  ∃ result h',
    Main.run SampleText.main_database SampleText.studs_report Sample.prices Sample.store
      = Ok (result, h') ∧
    frame Sample.store h' ∧
    ∀ m, mats h' m = mats Sample.store m ∨
         first_stud_material SampleText.main_database SampleText.studs_report
           Sample.store m.
Proof.
  assert (∃ result h',
            Main.run SampleText.main_database SampleText.studs_report Sample.prices
              Sample.store = Ok (result, h')) as (result & h' & Hrun).
  { eexists _, _. vm_compute. reflexivity. }
  exists result, h'. split; [exact Hrun|].
  apply (main_run_frame _ _ _ _ _ _ Hrun).
  repeat constructor.
Defined.

(** ** What [main.py] costs for road studs *)

Lemma road_studs_logic_quantity (key text : string) (specs_ref m : loc)
    (rest : list loc) (q0 : Q) (u0 : string) (h : heap) :
  Str.lower key = "road studs" →
  materials_per_meter (dicts h specs_ref) = Some (m :: rest) →
  ∃ q, Main.road_studs_logic key specs_ref text q0 u0 h =
         Ok ((q, "item", next h),
             Heap (<[next h := Specs (source_clause (dicts h specs_ref))
                                 (Some (m :: rest)) None
                                 (materials_per_cubic_meter (dicts h specs_ref))
                                 (materials_per_sqm_20mm (dicts h specs_ref))]>
                     (<[next h := dicts h specs_ref]> (dicts h)))
                  (<[m := Material (name (mats h m)) 1 (unit (mats h m))]> (mats h))
                  (S (next h))) ∧
       (∀ a b c d, found_range text a b c d → q = studs_for a b c d) ∧
       (Re.search pat_chainage_range text = None → q = 1%Q).
Proof.
  intros Hkey Hm. unfold Main.road_studs_logic. rewrite Hkey. simpl.
  destruct (Re.search pat_chainage_range text) as [caps|] eqn:Hs.
  - destruct (chainage_range_found _ caps Hs) as (a & b & c & d & Hr & Hq).
    exists (studs_for a b c d).
    unfold mbind, M_bind, lift, mret, M_ret. rewrite Hq.
    rewrite (adjust_spec_meter _ _ _ _ Hm). split; [reflexivity|]. split; [|done].
    intros a' b' c' d' Hr'.
    pose proof (found_range_studs _ _ _ _ _ _ Hs Hr') as Hq'. congruence.
  - exists 1%Q. unfold mbind, M_bind, mret, M_ret.
    rewrite (adjust_spec_meter _ _ _ _ Hm). split; [reflexivity|]. split; [|done].
    intros a b c d (g1 & g2 & g3 & g4 & Hs' & _). congruence.
Qed.



(** ** The two programs on the entries they share *)

Lemma cost_loop_ext (f g : material → Q) (prices : price_table) (ms : list material)
    (report : list line) :
  (∀ m, f m = g m) →
  cost_loop f prices ms report = cost_loop g prices ms report.
Proof.
  intros Hfg. unfold cost_loop. generalize (0%Q, report).
  induction ms as [|m ms IH]; intros st; simpl; [reflexivity|].
  rewrite IH. f_equal. unfold cost_step. by rewrite Hfg.
Qed.

Lemma quantity_logic_view (key text : string) (h : heap) (s : specs loc) :
  Str.lower key ≠ "road studs" → one_of_three s →
  App.quantity_logic key (view h s) text = Main.quantity_logic key s text.
Proof.
  intros Hkey Hone. unfold one_of_three in Hone.
  unfold App.quantity_logic, Main.quantity_logic, view. simpl.
  apply String.eqb_neq in Hkey.
  destruct (materials_per_item s), (materials_per_meter s),
    (materials_per_cubic_meter s); try done; simpl; rewrite ?Hkey; reflexivity.
Qed.

Lemma materials_list_view (h : heap) (s : specs loc) :
  one_of_three s →
  App.materials_list (view h s) = mats h <$> Main.materials_list s.
Proof.
  unfold one_of_three, App.materials_list, Main.materials_list, view. simpl.
  destruct (materials_per_item s), (materials_per_meter s),
    (materials_per_cubic_meter s); try done; simpl; intros _;
    by rewrite ?app_nil_r.
Qed.

Lemma iteration_view (text : string) (prices : price_table) (h : heap)
    (st : App.state) (key : string) (r : loc) :
  common_entry h (key, r) →
  Main.iteration text prices (App.total_project_cost st, App.report_lines st) (key, r) h =
    match App.iteration text prices st (key, view h (dicts h r)) with
    | Ok st' => Ok ((App.total_project_cost st', App.report_lines st'), h)
    | Raise e => Raise e
    end.
Proof.
  intros [Hkey Hone]. simpl in Hkey, Hone.
  unfold Main.iteration, App.iteration.
  destruct (Str.contains (Str.lower key) text); [|reflexivity].
  unfold mbind at 1, M_bind at 1, dict_read at 1.
  unfold mbind at 1, M_bind at 1, lift.
  rewrite (quantity_logic_view _ _ h _ Hkey Hone).
  destruct (Main.quantity_logic key (dicts h r) text) as [[q u]|]; [|reflexivity].
  simpl.
  unfold mbind at 1, M_bind at 1, Main.road_studs_logic.
  apply String.eqb_neq in Hkey. rewrite Hkey.
  unfold Main.calculate_cost, App.calculate_cost, mbind, M_bind, dict_read, get_heap,
    mret, M_ret.
  rewrite (materials_list_view _ _ Hone).
  rewrite (cost_loop_ext (App.qty_needed key u q) (Main.qty_needed q)).
  - simpl. destruct (cost_loop _ _ _ _) as [t rep].
    destruct (Qlt_le_dec 0 t); reflexivity.
  - intros m. unfold App.qty_needed, Main.qty_needed. by rewrite Hkey.
Qed.

(** On a table without entries for road studs in which every entry has
    exactly one of the per-item, per-meter and per-cubic-meter lists,
    [main.py] and the PDF tab of [app.py] agree: either both stop with
    the same error, or both end with the same grand total and the same
    lines of the report (how the numbers are printed aside), and
    [main.py] leaves its table as it was. *)
Theorem main_agrees_with_app (db : list (string * loc)) (text : string)
    (prices : price_table) (h : heap) :
  Forall (common_entry h) db →
  match Main.run db text prices h with
  | Ok ((total, report), h') =>
      h' = h ∧
      ∃ st, App.run (view_database h db) text prices = Ok st ∧
            App.total_project_cost st = total ∧ App.report_lines st = report
  | Raise e => App.run (view_database h db) text prices = Raise e
  end.
Proof.
  intros Hdb. unfold Main.run, App.run.
  assert (∀ st,
            for_in_M db (Main.iteration (Str.lower text) prices)
              (App.total_project_cost st, App.report_lines st) h =
            match for_in (view_database h db) (App.iteration (Str.lower text) prices) st with
            | Ok st' => Ok ((App.total_project_cost st', App.report_lines st'), h)
            | Raise e => Raise e
            end) as Hloop.
  { induction Hdb as [|[key r] xs Hx _ IH]; intros st; [reflexivity|].
    change (for_in_M ((key, r) :: xs) (Main.iteration (Str.lower text) prices)
              (App.total_project_cost st, App.report_lines st) h)
      with (match Main.iteration (Str.lower text) prices
                    (App.total_project_cost st, App.report_lines st) (key, r) h with
            | Ok (s1, h1) => for_in_M xs (Main.iteration (Str.lower text) prices) s1 h1
            | Raise e => Raise e
            end).
    rewrite (iteration_view _ _ _ _ _ _ Hx).
    change (for_in (view_database h ((key, r) :: xs))
              (App.iteration (Str.lower text) prices) st)
      with (match App.iteration (Str.lower text) prices st (key, view h (dicts h r)) with
            | Ok s1 => for_in (view_database h xs) (App.iteration (Str.lower text) prices) s1
            | Raise e => Raise e
            end).
    destruct (App.iteration (Str.lower text) prices st (key, view h (dicts h r)))
      as [st1|e]; [|reflexivity].
    apply IH. }
  unfold mbind at 1, M_bind at 1.
  pose proof (Hloop (App.State 0 [] [])) as Hl. simpl in Hl. rewrite Hl.
  destruct (for_in (view_database h db) _ _) as [st'|e]; simpl; [|reflexivity].
  split; [reflexivity|]. eexists. split; [reflexivity|]. simpl. auto.
Qed.

Lemma main_agrees_with_app_witness :
  ∃ total report st,
    Main.run [("Pothole", 2%nat)] SampleText.pothole_report Sample.prices Sample.store
      = Ok ((total, report), Sample.store) ∧
    App.run (view_database Sample.store [("Pothole", 2%nat)]) SampleText.pothole_report
      Sample.prices = Ok st ∧
    App.total_project_cost st = total ∧ App.report_lines st = report.
Proof.
  assert (Forall (common_entry Sample.store) [("Pothole", 2%nat)]) as Hdb.
  { constructor; [|constructor]. split; [discriminate | exact I]. }
  pose proof (main_agrees_with_app _ SampleText.pothole_report Sample.prices _ Hdb) as H.
  assert (∃ total report h',
            Main.run [("Pothole", 2%nat)] SampleText.pothole_report Sample.prices
              Sample.store = Ok ((total, report), h')) as (total & report & h' & Hrun).
  { eexists _, _, _. vm_compute. reflexivity. }
  rewrite Hrun in H. destruct H as (-> & st & Happ & Ht & Hr).
  exists total, report, st. auto.
Defined.
